(** * Transaction cleaner and proportional discount allocator

    A shallow embedding of [clean_transaction_data] (src/main.py, lines 17-103)
    and the properties of its output.

    Modelling choices, all read off the source:
    - a pandas cell is an [option]: [None] is the missing value (NaN) that
      [pd.read_csv] produces for an empty field;
    - floating point numbers are exact rationals in canonical form ([Qc]), so
      that equality of amounts is plain equality; NaN propagates through the
      arithmetic of Python floats and is skipped by [Series.sum];
    - a [DataFrame] is the list of its column names, the names of its
      columns of type int64 (the other numeric columns are float64) and the
      list of its rows; reading a column that is absent raises [KeyError],
      the only exception the function can raise on well-typed cells;
    - arithmetic between two int64 columns is the arithmetic of numpy: it
      wraps around at 64 bits (line 50); the scalar arithmetic after
      [float(...)] does not;
    - [groupby('unique_key').first()] sorts the groups by key and takes, in
      every column, the first value of the group that is not missing. *)

From Stdlib Require Import String Ascii Bool Arith ZArith QArith Qcanon Qround List.
From Stdlib Require Import Permutation Sorted Lia Lqa.
Import ListNotations.

Local Open Scope Qc_scope.

(** ** Numbers: Python floats over exact arithmetic *)

(** A numeric cell; [None] is NaN. *)
Definition num : Type := option Qc.

Definition nlift2 (f : Qc -> Qc -> Qc) (a b : num) : num :=
  match a, b with
  | Some x, Some y => Some (f x y)
  | _, _ => None
  end.

Definition nadd : num -> num -> num := nlift2 Qcplus.
Definition nsub : num -> num -> num := nlift2 Qcminus.
Definition nmul : num -> num -> num := nlift2 Qcmult.
Definition ndiv : num -> num -> num := nlift2 Qcdiv.

(** [float(x)] on a numeric cell. *)
Definition float (c : num) : num := c.

(** The sum of a Python loop [acc += x]: NaN is absorbing. *)
Definition nsum (l : list num) : num := fold_right nadd (Some 0) l.

(** [Series.sum()]: missing values are skipped, the empty sum is 0. *)
Fixpoint pandas_sum (l : list num) : Qc :=
  match l with
  | [] => 0
  | Some x :: t => x + pandas_sum t
  | None :: t => pandas_sum t
  end.

Definition Qcltb (x y : Qc) : bool := negb (Qle_bool y x).

Definition Qc_of_Z (z : Z) : Qc := Q2Qc (inject_Z z).

(** [round(x, 2)] over exact arithmetic: nearest multiple of 1/100, ties to
    the even one. *)
Definition round2 (x : Qc) : Qc :=
  let z := x * Qc_of_Z 100 in
  let f := Qfloor z in
  let r := z - Qc_of_Z f in
  let n := match r ?= Q2Qc (1 # 2) with
           | Lt => f
           | Gt => (f + 1)%Z
           | Eq => if Z.even f then f else (f + 1)%Z
           end in
  Qc_of_Z n / Qc_of_Z 100.

Definition nround2 (a : num) : num := option_map round2 a.

(** ** 64-bit integers: the arithmetic of int64 columns *)

(** Two's complement wrap-around. *)
Definition wrap64 (z : Z) : Z := ((z + 2 ^ 63) mod 2 ^ 64 - 2 ^ 63)%Z.

Definition int64_mul (a b : Z) : Z := wrap64 (a * b).
Definition int64_add (a b : Z) : Z := wrap64 (a + b).

(** The integer held by a cell of an int64 column. *)
Definition int64_of (c : num) : Z :=
  match c with Some x => Qfloor x | None => 0%Z end.

(** [Series.sum()] of an int64 Series. *)
Definition int64_sum (l : list Z) : Z := fold_left int64_add l 0%Z.

(** Decidable equality of numeric cells, to evaluate concrete amounts. *)
Definition num_eqb (a b : num) : bool :=
  match a, b with
  | Some x, Some y => Qeq_bool x y
  | None, None => true
  | _, _ => false
  end.

(** ** Cells, rows and frames *)

Definition notna {A : Type} (c : option A) : bool :=
  match c with Some _ => true | None => false end.

Definition isna {A : Type} (c : option A) : bool := negb (notna c).

(** [Series.astype(str)]: the missing value prints as the string nan (the
    behaviour of pandas before its dedicated string type). *)
Definition astype_str (c : option string) : string :=
  match c with Some s => s | None => "nan"%string end.

(** Elementwise [==] of pandas: a missing value equals nothing, not even
    another missing value. *)
Definition cell_eqb (a b : option string) : bool :=
  match a, b with
  | Some x, Some y => String.eqb x y
  | _, _ => false
  end.

(** One input row, a field per expected CSV column. *)
Record RawRow : Type := mkRawRow {
  created_at_myt : option string;
  order_number : option string;
  customer_email : option string;
  CarrierCode : option string;
  item_name : option string;
  item_ref_id : option string;
  item_quantity : num;
  myr_item_unit_amount : num;
  myr_total_amount : num;
  myr_paid_amount : num;
  myr_points_redeemed_value : num;
  discountName : option string
}.

Record DataFrame : Type := mkDataFrame {
  columns : list string;
  int64_columns : list string;
  rows : list RawRow
}.

(** One output row; the columns that keep their input name carry the
    prefix [out_]. *)
Record CleanedRecord : Type := mkCleanedRecord {
  out_created_at_myt : option string;
  out_order_number : option string;
  out_customer_email : option string;
  out_CarrierCode : option string;
  out_item_name : option string;
  out_item_ref_id : option string;
  out_item_quantity : num;
  item_unit_price : num;
  item_total_price : num;
  discount_name : option string;
  discount_amount : num;
  points_redeemed : num;
  final_paid_amount : num;
  order_total : num;
  item_proportion_pct : num
}.

(** The columns listed under "Expected CSV Columns". *)
Definition required_columns : list string :=
  [ "created_at_myt"; "order_number"; "customer_email"; "CarrierCode";
    "item_name"; "item_ref_id"; "item_quantity"; "myr_item_unit_amount";
    "myr_total_amount"; "myr_paid_amount"; "myr_points_redeemed_value";
    "discountName" ]%string.

(** ** Exceptions *)

Inductive result (A : Type) : Type :=
| Ok (a : A)
| KeyError (key : string).

Arguments Ok {A} a.
Arguments KeyError {A} key.

Definition bind {A B : Type} (m : result A) (k : A -> result B) : result B :=
  match m with
  | Ok a => k a
  | KeyError c => KeyError c
  end.

Notation "x <- m ;; k" := (bind m (fun x => k))
  (at level 61, m at next level, right associativity).
Notation "m ;;; k" := (bind m (fun _ => k))
  (at level 61, right associativity).

Fixpoint mapM {A B : Type} (f : A -> result B) (l : list A) : result (list B) :=
  match l with
  | [] => Ok []
  | a :: t => b <- f a ;; bs <- mapM f t ;; Ok (b :: bs)
  end.

(** [df[c]]: reading column [c]. *)
Definition getitem (cols : list string) (c : string) : result unit :=
  if in_dec string_dec c cols then Ok tt else KeyError c.

(** ** Key assignment and row partitioning (lines 21-29) *)

Definition unique_key (r : RawRow) : string :=
  (astype_str (order_number r) ++ "_" ++ astype_str (item_ref_id r))%string.

Definition discount_rows (rs : list RawRow) : list RawRow :=
  filter (fun r => notna (discountName r)) rs.

Definition base_rows (rs : list RawRow) : list RawRow :=
  let base := filter (fun r => isna (discountName r)) rs in
  if (length base =? 0)%nat then rs else base.

(** ** Deduplication (line 32) *)

Fixpoint insert_key (k : string) (l : list string) : list string :=
  match l with
  | [] => [k]
  | h :: t => if String.leb k h then k :: l else h :: insert_key k t
  end.

Definition sort_keys (l : list string) : list string :=
  fold_right insert_key [] l.

(** The group labels: the distinct keys, in ascending order. *)
Definition group_keys (rs : list RawRow) : list string :=
  sort_keys (nodup string_dec (map unique_key rs)).

Definition group (k : string) (rs : list RawRow) : list RawRow :=
  filter (fun r => String.eqb (unique_key r) k) rs.

Fixpoint first_valid {A : Type} (l : list (option A)) : option A :=
  match l with
  | [] => None
  | Some a :: _ => Some a
  | None :: t => first_valid t
  end.

(** [GroupBy.first()] on one group: column by column. *)
Definition first_of_group (g : list RawRow) : RawRow :=
  {| created_at_myt := first_valid (map created_at_myt g);
     order_number := first_valid (map order_number g);
     customer_email := first_valid (map customer_email g);
     CarrierCode := first_valid (map CarrierCode g);
     item_name := first_valid (map item_name g);
     item_ref_id := first_valid (map item_ref_id g);
     item_quantity := first_valid (map item_quantity g);
     myr_item_unit_amount := first_valid (map myr_item_unit_amount g);
     myr_total_amount := first_valid (map myr_total_amount g);
     myr_paid_amount := first_valid (map myr_paid_amount g);
     myr_points_redeemed_value := first_valid (map myr_points_redeemed_value g);
     discountName := first_valid (map discountName g) |}.

(** [groupby('unique_key').first().reset_index()]: one row per key, the key
    kept as a column next to the merged row. *)
Definition groupby_first (rs : list RawRow) : list (string * RawRow) :=
  map (fun k => (k, first_of_group (group k rs))) (group_keys rs).

(** The deduplicated items of a table. *)
Definition dedup (rs : list RawRow) : list (string * RawRow) :=
  groupby_first (base_rows rs).

(** ** Order aggregation and allocation (lines 36-74) *)

(** The row mask of lines 41-44 and 65-68: both identifiers compared with
    the elementwise [==]. *)
Definition same_item (ono iid : option string) (d : RawRow) : bool :=
  cell_eqb (order_number d) ono && cell_eqb (item_ref_id d) iid.

Definition matching_discount (drows : list RawRow) (ono iid : option string)
  : list RawRow :=
  filter (same_item ono iid) drows.

(** Line 47: the deduplicated items of the order of the current row. *)
Definition order_items (items : list (string * RawRow)) (ono : option string)
  : list (string * RawRow) :=
  filter (fun b => cell_eqb (order_number (snd b)) ono) items.

Definition item_val (b : string * RawRow) : num :=
  nmul (float (myr_item_unit_amount (snd b))) (float (item_quantity (snd b))).

Definition is_int64 (ints : list string) (c : string) : bool :=
  if in_dec string_dec c ints then true else false.

(** The product of the two Series on line 50 is an int64 Series exactly when
    both columns are int64. *)
Definition int64_product (ints : list string) : bool :=
  is_int64 ints "myr_item_unit_amount" && is_int64 ints "item_quantity".

(** Line 50: the product of two columns of the order's items, summed.  On
    two int64 columns both the products and the sum wrap around; otherwise
    the product is a float64 Series, whose sum skips missing values. *)
Definition order_items_total (ints : list string)
  (items : list (string * RawRow)) (ono : option string) : Qc :=
  if int64_product ints
  then Qc_of_Z (int64_sum
                  (map (fun b => int64_mul
                                   (int64_of (myr_item_unit_amount (snd b)))
                                   (int64_of (item_quantity (snd b))))
                       (order_items items ono)))
  else pandas_sum (map (fun b => nmul (myr_item_unit_amount (snd b))
                                      (item_quantity (snd b)))
                       (order_items items ono)).

(** Line 58; the else branch is the integer 0. *)
Definition item_proportion (ints : list string)
  (items : list (string * RawRow)) (base_row : string * RawRow) : num :=
  let total := order_items_total ints items (order_number (snd base_row)) in
  if Qcltb 0 total then ndiv (item_val base_row) (Some total) else Some 0.

(** Lines 61-71: the loop over the items of the order, with its accumulator.
    The paid amount is read only for an item that has a matching discount
    row. *)
Fixpoint order_discount_loop (cols : list string) (drows : list RawRow)
  (ono : option string) (items : list (string * RawRow)) (acc : num)
  : result num :=
  match items with
  | [] => Ok acc
  | order_item :: rest =>
      if (0 <? length (matching_discount drows ono
                         (item_ref_id (snd order_item))))%nat
      then
        getitem cols "myr_paid_amount" ;;;
        let paid_val := float (myr_paid_amount (snd order_item)) in
        order_discount_loop cols drows ono rest
          (nadd acc (nsub (item_val order_item) paid_val))
      else order_discount_loop cols drows ono rest acc
  end.

(** The value of [total_order_discount] on line 74 for a row of order [ono]. *)
Definition total_order_discount (cols : list string) (drows : list RawRow)
  (items : list (string * RawRow)) (ono : option string) : result num :=
  order_discount_loop cols drows ono (order_items items ono) (Some 0).

(** ** Record assembly (lines 36-101): one iteration of the outer loop *)

Definition process_row (cols ints : list string) (drows : list RawRow)
  (items : list (string * RawRow)) (base_row : string * RawRow)
  : result CleanedRecord :=
  let ono := order_number (snd base_row) in
  let iid := item_ref_id (snd base_row) in
  let discount_info := matching_discount drows ono iid in
  getitem cols "myr_item_unit_amount" ;;;
  getitem cols "item_quantity" ;;;
  let item_price := float (myr_item_unit_amount (snd base_row)) in
  let quantity := float (item_quantity (snd base_row)) in
  let item_total := nmul item_price quantity in
  let proportion := item_proportion ints items base_row in
  total <- total_order_discount cols drows items ono ;;
  let allocated_discount := nmul total proportion in
  getitem cols "myr_points_redeemed_value" ;;;
  let points :=
    if notna (myr_points_redeemed_value (snd base_row))
    then float (myr_points_redeemed_value (snd base_row))
    else Some 0 in
  let final := nsub (nsub item_total allocated_discount) points in
  let name := match discount_info with
              | d :: _ => discountName d
              | [] => Some EmptyString
              end in
  getitem cols "created_at_myt" ;;;
  getitem cols "customer_email" ;;;
  getitem cols "CarrierCode" ;;;
  getitem cols "item_name" ;;;
  getitem cols "myr_total_amount" ;;;
  Ok {| out_created_at_myt := created_at_myt (snd base_row);
        out_order_number := ono;
        out_customer_email := customer_email (snd base_row);
        out_CarrierCode := CarrierCode (snd base_row);
        out_item_name := item_name (snd base_row);
        out_item_ref_id := iid;
        out_item_quantity := quantity;
        item_unit_price := item_price;
        item_total_price := item_total;
        discount_name := name;
        discount_amount := allocated_discount;
        points_redeemed := points;
        final_paid_amount := final;
        order_total := float (myr_total_amount (snd base_row));
        item_proportion_pct := nround2 (nmul proportion (Some (Qc_of_Z 100))) |}.

(** ** The whole function *)

Definition clean_transaction_data (df : DataFrame) : result (list CleanedRecord) :=
  getitem (columns df) "order_number" ;;;
  getitem (columns df) "item_ref_id" ;;;
  getitem (columns df) "discountName" ;;;
  let items := dedup (rows df) in
  mapM (process_row (columns df) (int64_columns df) (discount_rows (rows df))
          items) items.

(** A table that carries every expected column. *)
Definition complete (df : DataFrame) : Prop :=
  incl required_columns (columns df).

(** ** Sample tables *)

Definition q (n d : Z) : num := Some (Q2Qc (Qmake n (Z.to_pos d))).

Definition row (ono iid : option string) (qty price total paid points : num)
  (dn : option string) : RawRow :=
  {| created_at_myt := Some "2024-01-01"%string;
     order_number := ono;
     customer_email := Some "a@b.c"%string;
     CarrierCode := Some "MH"%string;
     item_name := Some "item"%string;
     item_ref_id := iid;
     item_quantity := qty;
     myr_item_unit_amount := price;
     myr_total_amount := total;
     myr_paid_amount := paid;
     myr_points_redeemed_value := points;
     discountName := dn |}.

(** A table with every expected column, its numeric columns float64. *)
Definition frame (rs : list RawRow) : DataFrame :=
  {| columns := required_columns; int64_columns := []; rows := rs |}.

(** The value of a successful run (the empty table otherwise). *)
Definition value {A : Type} (m : result (list A)) : list A :=
  match m with Ok l => l | KeyError _ => [] end.

Definition is_ok {A : Type} (m : result A) : bool :=
  match m with Ok _ => true | KeyError _ => false end.

(** Scenario B of the test list: order O2, item 1 discounted by SALE10. *)
Definition scenario_B : DataFrame :=
  frame [ row (Some "O2") (Some "I1") (q 1 1) (q 100 1) (q 130 1) (q 80 1) None None;
          row (Some "O2") (Some "I1") (q 1 1) (q 100 1) (q 130 1) (q 80 1) None (Some "SALE10");
          row (Some "O2") (Some "I2") (q 1 1) (q 50 1) (q 130 1) (q 50 1) None None ]%string.

(** The order of the group labels. *)
Definition key_le (a b : string) : Prop := String.leb a b = true.

(** ** Vocabulary of the specification *)

(** The rational behind a numeric cell. *)
Definition amount (n : num) : option Q := option_map this n.

(** The identifier pair of a row. *)
Definition ids (r : RawRow) : option string * option string :=
  (order_number r, item_ref_id r).

(** An item has at least one discount row with its identifiers. *)
Definition has_discount_row (drows : list RawRow) (ono : option string)
  (b : string * RawRow) : bool :=
  existsb (same_item ono (item_ref_id (snd b))) drows.

(** The gap between the value and the paid amount of a deduplicated item. *)
Definition price_paid_gap (b : string * RawRow) : num :=
  nsub (item_val b) (myr_paid_amount (snd b)).

(** The order discount total as the specification words it: the gaps of the
    items of the order that have a discount row, added up. *)
Definition orderDiscountTotal_spec (drows : list RawRow)
  (items : list (string * RawRow)) (ono : option string) : num :=
  nsum (map price_paid_gap
         (filter (has_discount_row drows ono) (order_items items ono))).

(** The output records of one order. *)
Definition records_of_order (ono : option string) (out : list CleanedRecord)
  : list CleanedRecord :=
  filter (fun r => cell_eqb (out_order_number r) ono) out.


(** The columns every iteration of the outer loop reads. *)
Definition columns_read_per_item : list string :=
  [ "myr_item_unit_amount"; "item_quantity"; "myr_points_redeemed_value";
    "created_at_myt"; "customer_email"; "CarrierCode"; "item_name";
    "myr_total_amount" ]%string.

(** The columns read before the loop. *)
Definition columns_read_first : list string :=
  [ "order_number"; "item_ref_id"; "discountName" ]%string.

(** The order discount total is a number greater than zero. *)
Definition order_discount_positive (cols : list string) (drows : list RawRow)
  (items : list (string * RawRow)) (ono : option string) : bool :=
  match total_order_discount cols drows items ono with
  | Ok (Some d) => Qcltb 0 d
  | _ => false
  end.

(** An order of one free item, refunded 5 under a discount code. *)
Definition free_item_order : DataFrame :=
  frame [ row (Some "O3") (Some "I1") (q 1 1) (q 0 1) (q 0 1) (q (-5) 1) None None;
          row (Some "O3") (Some "I1") (q 1 1) (q 0 1) (q 0 1) (q (-5) 1) None (Some "REFUND") ]%string.

(** Equality of identifiers as values: two missing identifiers are the same. *)
Definition cell_same (a b : option string) : bool :=
  match a, b with
  | Some x, Some y => String.eqb x y
  | None, None => true
  | _, _ => false
  end.

(** The output records that carry a given identifier pair. *)
Definition records_with_ids (p : option string * option string)
  (out : list CleanedRecord) : list CleanedRecord :=
  filter (fun c => cell_same (out_order_number c) (fst p)
                   && cell_same (out_item_ref_id c) (snd p)) out.

(** Item A sold plainly, item B present only in a discount row. *)
Definition discount_only_item : DataFrame :=
  frame [ row (Some "O1") (Some "A") (q 1 1) (q 10 1) (q 15 1) (q 10 1) None None;
          row (Some "O1") (Some "B") (q 1 1) (q 5 1) (q 15 1) (q 4 1) None (Some "PROMO") ]%string.


(** A row whose discount marker is the empty string, next to a plain row. *)
Definition empty_marker_row : RawRow :=
  (row (Some "O5") (Some "I1") (q 1 1) (q 10 1) (q 10 1) (q 10 1) None
     (Some EmptyString))%string.

Definition plain_row : RawRow :=
  (row (Some "O5") (Some "I2") (q 1 1) (q 10 1) (q 10 1) (q 10 1) None None)%string.

(** A table of one plain row that lacks the paid amount column. *)
Definition no_paid_column : DataFrame :=
  {| columns := [ "created_at_myt"; "order_number"; "customer_email";
                  "CarrierCode"; "item_name"; "item_ref_id"; "item_quantity";
                  "myr_item_unit_amount"; "myr_total_amount";
                  "myr_points_redeemed_value"; "discountName" ]%string;
     int64_columns := [];
     rows := [plain_row] |}.

(** An empty table that has the three columns read before the loop only. *)
Definition empty_table : DataFrame :=
  {| columns := columns_read_first; int64_columns := []; rows := [] |}.

(** Two items of equal value; the order number is a parameter. *)
Definition two_items (ono : option string) : DataFrame :=
  frame [ row ono (Some "I1") (q 1 1) (q 10 1) (q 20 1) (q 10 1) None None;
          row ono (Some "I2") (q 1 1) (q 10 1) (q 20 1) (q 10 1) None None ]%string.

(** Two rows with distinct identifier pairs and one key. *)
Definition left_row : RawRow :=
  (row (Some "a_b") (Some "c") (q 1 1) (q 10 1) (q 10 1) (q 10 1) None None)%string.

Definition right_row : RawRow :=
  (row (Some "a") (Some "b_c") (q 1 1) (q 7 1) (q 7 1) (q 7 1) None None)%string.

(** The key of an output record, from its two identifier columns. *)
Definition record_key (r : CleanedRecord) : string :=
  (astype_str (out_order_number r) ++ "_" ++ astype_str (out_item_ref_id r))%string.

(** Both identifiers of the row are present. *)
Definition identified (r : RawRow) : Prop :=
  order_number r <> None /\ item_ref_id r <> None.

(** What the discount rows contribute to the result: identifiers and name. *)
Definition marker (r : RawRow) : option string * option string * option string :=
  (order_number r, item_ref_id r, discountName r).

(** Three rows in descending key order, one of them discounted. *)
Definition unsorted_table : DataFrame :=
  frame [ row (Some "O9") (Some "Z") (q 1 1) (q 30 1) (q 30 1) (q 30 1) None None;
          row (Some "O9") (Some "B") (q 2 1) (q 10 1) (q 30 1) (q 15 1) (q 1 1) None;
          row (Some "O9") (Some "B") (q 2 1) (q 10 1) (q 30 1) (q 15 1) (q 1 1) (Some "TEN");
          row (Some "O1") (Some "M") (q 1 1) (q 5 1) (q 5 1) (q 5 1) None None ]%string.

(** A table in which every row carries a discount name. *)
Definition all_discounted : DataFrame :=
  frame [ row (Some "O7") (Some "I1") (q 1 1) (q 10 1) (q 10 1) (q 8 1) None (Some "FIRST");
          row (Some "O7") (Some "I1") (q 1 1) (q 10 1) (q 10 1) (q 8 1) None (Some "SECOND");
          row (Some "O7") (Some "I2") (q 1 1) (q 10 1) (q 10 1) (q 10 1) None (Some "THIRD") ]%string.

(** Scenario B with other amounts in its discount row. *)
Definition scenario_B_other_amounts : DataFrame :=
  frame [ row (Some "O2") (Some "I1") (q 1 1) (q 100 1) (q 130 1) (q 80 1) None None;
          row (Some "O2") (Some "I1") (q 7 1) (q 999 1) (q 0 1) (q 0 1) (q 5 1) (Some "SALE10");
          row (Some "O2") (Some "I2") (q 1 1) (q 50 1) (q 130 1) (q 50 1) None None ]%string.

(** [cleaned_df['order_number'].unique()] without the missing value: the
    orders counted by the Total Orders figure (line 130). *)
Definition order_numbers (out : list CleanedRecord) : list string :=
  nodup string_dec
    (flat_map (fun r => match out_order_number r with
                        | Some o => [o]
                        | None => []
                        end) out).

(** A plain sum of amounts. *)
Definition Qc_sum (l : list Qc) : Qc := fold_right Qcplus 0 l.

(** ** The summary of the page (lines 127-143) *)

(** The columns of [pd.DataFrame(cleaned_data)]: the keys of the records,
    and no column at all when there is no record. *)
Definition output_columns : list string :=
  [ "created_at_myt"; "order_number"; "customer_email"; "CarrierCode";
    "item_name"; "item_ref_id"; "item_quantity"; "item_unit_price";
    "item_total_price"; "discount_name"; "discount_amount";
    "points_redeemed"; "final_paid_amount"; "order_total";
    "item_proportion_pct" ]%string.

Definition columns_of (out : list CleanedRecord) : list string :=
  match out with
  | [] => []
  | _ :: _ => output_columns
  end.

(** [cleaned_df['item_ref_id'].unique()] without the missing value. *)
Definition item_ids (out : list CleanedRecord) : list string :=
  nodup string_dec
    (flat_map (fun r => match out_item_ref_id r with
                        | Some i => [i]
                        | None => []
                        end) out).

(** [int(x)]: truncation towards zero. *)
Definition int (x : Qc) : Z := Z.quot (Qnum x) (Zpos (Qden x)).

Record Summary : Type := mkSummary {
  total_orders : nat;
  total_items : Z;
  total_revenue : Qc;
  total_discounts : Qc;
  total_points : Qc;
  total_paid : Qc;
  avg_discount_pct : num;
  unique_products : nat
}.

(** The figures of lines 130-143, computed in that order; each column is
    read from the cleaned table first.  A division by a zero revenue raises
    nothing in numpy: the average is then not a finite number. *)
Definition summary (out : list CleanedRecord) : result Summary :=
  let cols := columns_of out in
  getitem cols "order_number" ;;;
  let orders := length (order_numbers out) in
  getitem cols "item_quantity" ;;;
  let items := int (pandas_sum (map out_item_quantity out)) in
  getitem cols "item_total_price" ;;;
  let revenue := pandas_sum (map item_total_price out) in
  getitem cols "discount_amount" ;;;
  let discounts := pandas_sum (map discount_amount out) in
  getitem cols "points_redeemed" ;;;
  let points := pandas_sum (map points_redeemed out) in
  getitem cols "final_paid_amount" ;;;
  let paid := pandas_sum (map final_paid_amount out) in
  getitem cols "discount_amount" ;;;
  getitem cols "item_total_price" ;;;
  let avg := if Qeq_bool revenue 0 then None
             else Some (discounts / revenue * Qc_of_Z 100) in
  getitem cols "item_ref_id" ;;;
  let products := length (item_ids out) in
  Ok {| total_orders := orders;
        total_items := items;
        total_revenue := revenue;
        total_discounts := discounts;
        total_points := points;
        total_paid := paid;
        avg_discount_pct := avg;
        unique_products := products |}.

(** ** When line 50 computes the sum of the item values *)

(** The cell of an int64 column holds a whole number. *)
Definition int64_cell (c : num) : Prop := exists z : Z, c = Some (Qc_of_Z z).

(** The products of line 50 added up over the integers, without wrap-around. *)
Definition exact_int_total (items : list (string * RawRow))
  (ono : option string) : Z :=
  fold_right Z.add 0%Z
    (map (fun b => (int64_of (myr_item_unit_amount (snd b))
                    * int64_of (item_quantity (snd b)))%Z)
         (order_items items ono)).

(** Line 50 does not wrap around: either one of the two columns is float64,
    or both hold whole numbers whose products add up within the range of
    int64. *)
Definition total_without_wrap (ints : list string)
  (items : list (string * RawRow)) (ono : option string) : Prop :=
  int64_product ints = false
  \/ (Forall (fun b => int64_cell (myr_item_unit_amount (snd b))
                        /\ int64_cell (item_quantity (snd b)))
             (order_items items ono)
      /\ (- 2 ^ 63 <= exact_int_total items ono < 2 ^ 63)%Z).

(** The integer [z] as a cell. *)
Definition zcell (z : Z) : num := Some (Qc_of_Z z).

(** A table with every expected column whose unit price and quantity
    columns are int64. *)
Definition int64_frame (rs : list RawRow) : DataFrame :=
  {| columns := required_columns;
     int64_columns := [ "item_quantity"; "myr_item_unit_amount" ]%string;
     rows := rs |}.

(** An order of whole numbers: 3 at 20 and 1 at 40, the first discounted. *)
Definition int64_order : DataFrame :=
  int64_frame
    [ row (Some "O6") (Some "I1") (zcell 3) (zcell 20) (q 100 1) (q 50 1) None None;
      row (Some "O6") (Some "I1") (zcell 3) (zcell 20) (q 100 1) (q 50 1) None (Some "TEN");
      row (Some "O6") (Some "I2") (zcell 1) (zcell 40) (q 100 1) (q 40 1) None None ]%string.

(** An order whose first product, 2^32 times 2^32, wraps around to 0: the
    second item, 1 at 10 and paid 4 under a discount code, is all that
    line 50 counts. *)
Definition overflow_order : DataFrame :=
  int64_frame
    [ row (Some "O8") (Some "A") (zcell 4294967296) (zcell 4294967296)
          (q 100 1) (q 100 1) None None;
      row (Some "O8") (Some "B") (zcell 1) (zcell 10) (q 100 1) (q 4 1) None None;
      row (Some "O8") (Some "B") (zcell 1) (zcell 10) (q 100 1) (q 4 1) None
          (Some "SIX") ]%string.

(** A table of a single row, which carries a discount name; its paid amount
    is a parameter. *)
Definition only_discount_row (paid : num) : DataFrame :=
  frame [ row (Some "O2") (Some "I1") (q 1 1) (q 100 1) (q 100 1) paid None
              (Some "SALE10") ]%string.

(** The order discount total of a table, as a rational, when there is one. *)
Definition order_discount_amount (df : DataFrame) (ono : option string)
  : option (option Q) :=
  match total_order_discount (columns df) (discount_rows (rows df))
          (dedup (rows df)) ono with
  | Ok d => Some (amount d)
  | KeyError _ => None
  end.





(** * Properties *)

(** ** The exception monad *)

Lemma bind_Ok_inv {A B : Type} (m : result A) (k : A -> result B) (b : B) :
  bind m k = Ok b -> exists a, m = Ok a /\ k a = Ok b.
Proof.
  destruct m as [a | c]; simpl; intros H.
  - exists a; split; [reflexivity | exact H].
  - discriminate H.
Qed.

Lemma getitem_present (cols : list string) (c : string) :
  In c cols -> getitem cols c = Ok tt.
Proof.
  intros H; unfold getitem.
  destruct (in_dec string_dec c cols) as [_ | n]; [reflexivity | contradiction].
Qed.

Lemma getitem_absent (cols : list string) (c : string) :
  ~ In c cols -> getitem cols c = KeyError c.
Proof.
  intros H; unfold getitem.
  destruct (in_dec string_dec c cols) as [i | _]; [contradiction | reflexivity].
Qed.

Lemma getitem_KeyError_inv (cols : list string) (c k : string) :
  getitem cols c = KeyError k -> k = c /\ ~ In c cols.
Proof.
  unfold getitem.
  destruct (in_dec string_dec c cols) as [i | n]; intros H.
  - discriminate H.
  - injection H as <-. split; [reflexivity | exact n].
Qed.

Lemma getitem_Ok_inv (cols : list string) (c : string) (u : unit) :
  getitem cols c = Ok u -> In c cols.
Proof.
  unfold getitem.
  destruct (in_dec string_dec c cols) as [i | n]; intros H;
    [exact i | discriminate H].
Qed.

(** Peel the leading binds of a successful computation. *)
Ltac ok_inv H :=
  repeat match type of H with
         | bind _ _ = Ok _ =>
             let a := fresh "a" in
             let Ha := fresh "Hget" in
             apply bind_Ok_inv in H; destruct H as (a & Ha & H)
         end.

Lemma mapM_Forall2 {A B : Type} (f : A -> result B) (l : list A) (out : list B) :
  mapM f l = Ok out -> Forall2 (fun a b => f a = Ok b) l out.
Proof.
  revert out; induction l as [| a t IH]; simpl; intros out H.
  - injection H as <-. constructor.
  - ok_inv H. injection H as <-. constructor; auto.
Qed.

Lemma Forall2_mapM {A B : Type} (f : A -> result B) (l : list A) (out : list B) :
  Forall2 (fun a b => f a = Ok b) l out -> mapM f l = Ok out.
Proof.
  induction 1 as [| a b t bs Hab _ IH]; simpl.
  - reflexivity.
  - rewrite Hab, IH. reflexivity.
Qed.

Lemma mapM_total {A B : Type} (f : A -> result B) (l : list A) :
  (forall a, In a l -> exists b, f a = Ok b) -> exists out, mapM f l = Ok out.
Proof.
  induction l as [| a t IH]; simpl; intros H.
  - exists []. reflexivity.
  - destruct (H a (or_introl eq_refl)) as (b & Hb).
    destruct IH as (bs & Hbs); [intros x Hx; apply H; right; exact Hx |].
    exists (b :: bs). rewrite Hb, Hbs. reflexivity.
Qed.

Lemma mapM_KeyError_inv {A B : Type} (f : A -> result B) (l : list A) (k : string) :
  mapM f l = KeyError k -> exists a, In a l /\ f a = KeyError k.
Proof.
  induction l as [| a t IH]; simpl; intros H.
  - discriminate H.
  - destruct (f a) as [b | c] eqn:Ha; simpl in H.
    + destruct (mapM f t) as [bs | c] eqn:Ht; simpl in H; [discriminate H |].
      injection H as ->. destruct (IH eq_refl) as (x & Hx & Hfx).
      exists x; split; [right; exact Hx | exact Hfx].
    + injection H as ->. exists a; split; [left; reflexivity | exact Ha].
Qed.

(** ** Lists *)

Lemma Forall2_filter {A B : Type} (R : A -> B -> Prop) (f : A -> bool)
  (g : B -> bool) (l : list A) (l' : list B) :
  Forall2 (fun a b => R a b /\ f a = g b) l l' ->
  Forall2 R (filter f l) (filter g l').
Proof.
  induction 1 as [| a b t t' [HR Hfg] _ IH]; simpl.
  - constructor.
  - rewrite <- Hfg. destruct (f a); [constructor; assumption | assumption].
Qed.

Lemma Forall2_impl {A B : Type} (R R' : A -> B -> Prop) (l : list A) (l' : list B) :
  (forall a b, R a b -> R' a b) -> Forall2 R l l' -> Forall2 R' l l'.
Proof.
  intros H; induction 1; constructor; auto.
Qed.

Lemma Forall2_In_r {A B : Type} (R : A -> B -> Prop) (l : list A) (l' : list B) (b : B) :
  Forall2 R l l' -> In b l' -> exists a, In a l /\ R a b.
Proof.
  induction 1 as [| a b' t t' HR _ IH]; simpl; intros Hin.
  - contradiction.
  - destruct Hin as [<- | Hin].
    + exists a; auto.
    + destruct (IH Hin) as (x & Hx & HRx). exists x; auto.
Qed.

Lemma Forall2_In_l {A B : Type} (R : A -> B -> Prop) (l : list A) (l' : list B) (a : A) :
  Forall2 R l l' -> In a l -> exists b, In b l' /\ R a b.
Proof.
  induction 1 as [| a' b t t' HR _ IH]; simpl; intros Hin.
  - contradiction.
  - destruct Hin as [<- | Hin].
    + exists b; auto.
    + destruct (IH Hin) as (x & Hx & HRx). exists x; auto.
Qed.

(** ** Sorting the group labels *)

Lemma insert_key_perm (k : string) (l : list string) :
  Permutation (insert_key k l) (k :: l).
Proof.
  induction l as [| h t IH]; simpl.
  - apply Permutation_refl.
  - destruct (String.leb k h).
    + apply Permutation_refl.
    + eapply perm_trans; [apply perm_skip, IH | apply perm_swap].
Qed.

Lemma sort_keys_perm (l : list string) : Permutation (sort_keys l) l.
Proof.
  induction l as [| h t IH]; simpl.
  - constructor.
  - eapply perm_trans; [apply insert_key_perm | apply perm_skip, IH].
Qed.

Lemma insert_key_sorted (k : string) (l : list string) :
  Sorted key_le l -> Sorted key_le (insert_key k l).
Proof.
  induction l as [| h t IH]; simpl; intros Hs.
  - repeat constructor.
  - destruct (String.leb k h) eqn:E.
    + constructor; [exact Hs | constructor; exact E].
    + inversion Hs as [| ? ? Ht Hh]; subst.
      constructor; [apply IH; exact Ht |].
      assert (Hhk : key_le h k).
      { destruct (String.leb_total k h) as [H | H]; [congruence | exact H]. }
      destruct t as [| h' t']; simpl.
      * constructor; exact Hhk.
      * destruct (String.leb k h'); constructor; [exact Hhk |].
        inversion Hh; assumption.
Qed.

Lemma sort_keys_sorted (l : list string) : Sorted key_le (sort_keys l).
Proof.
  induction l as [| h t IH]; simpl.
  - constructor.
  - apply insert_key_sorted, IH.
Qed.

Lemma group_keys_NoDup (rs : list RawRow) : NoDup (group_keys rs).
Proof.
  unfold group_keys.
  eapply Permutation_NoDup; [apply Permutation_sym, sort_keys_perm |].
  apply NoDup_nodup.
Qed.

Lemma group_keys_In (rs : list RawRow) (k : string) :
  In k (group_keys rs) <-> exists r, In r rs /\ unique_key r = k.
Proof.
  unfold group_keys. split.
  - intros H. apply (Permutation_in _ (sort_keys_perm _)) in H.
    apply nodup_In, in_map_iff in H. destruct H as (r & Hk & Hr).
    exists r; auto.
  - intros (r & Hr & Hk).
    apply (Permutation_in _ (Permutation_sym (sort_keys_perm _))).
    apply nodup_In, in_map_iff. exists r; auto.
Qed.

Lemma groupby_first_keys (rs : list RawRow) :
  map fst (groupby_first rs) = group_keys rs.
Proof.
  unfold groupby_first. rewrite map_map. simpl. apply map_id.
Qed.

(** ** Arithmetic of numeric cells *)

Ltac qlra :=
  repeat match goal with v := _ |- _ => clearbody v end; lra.

Lemma this_Qc_of_Z (z : Z) : (this (Qc_of_Z z) == inject_Z z)%Q.
Proof. unfold Qc_of_Z, Q2Qc. cbn [this]. apply Qred_correct. Qed.

Lemma this_plus (a b : Qc) : (this (a + b) == this a + this b)%Q.
Proof. unfold Qcplus, Q2Qc. cbn [this]. apply Qred_correct. Qed.
Lemma this_minus (a b : Qc) : (this (a - b) == this a - this b)%Q.
Proof.
  unfold Qcminus. rewrite this_plus. unfold Qcopp, Q2Qc. cbn [this].
  rewrite Qred_correct. reflexivity.
Qed.
Lemma this_mult (a b : Qc) : (this (a * b) == this a * this b)%Q.
Proof. unfold Qcmult, Q2Qc. cbn [this]. apply Qred_correct. Qed.
Lemma this_div (a b : Qc) : (this (a / b) == this a / this b)%Q.
Proof.
  unfold Qcdiv. rewrite this_mult. unfold Qcinv, Q2Qc. cbn [this].
  rewrite Qred_correct. reflexivity.
Qed.

Lemma Qcltb_lt (x y : Qc) : Qcltb x y = true <-> x < y.
Proof.
  unfold Qcltb, Qclt. rewrite negb_true_iff. split; intros H.
  - apply Qnot_le_lt. intros Hle. apply Qle_bool_iff in Hle. congruence.
  - destruct (Qle_bool y x) eqn:E; [| reflexivity].
    apply Qle_bool_iff in E. exfalso. exact (Qlt_not_le _ _ H E).
Qed.

Lemma Qcltb_irrefl (x : Qc) : Qcltb x x = false.
Proof.
  destruct (Qcltb x x) eqn:E; [| reflexivity].
  apply Qcltb_lt in E. exfalso. exact (Qclt_not_eq _ _ E eq_refl).
Qed.

Lemma num_eqb_eq (a b : num) : num_eqb a b = true <-> a = b.
Proof.
  destruct a as [x |], b as [y |]; simpl; split; intros H;
    try reflexivity; try discriminate H.
  - f_equal. apply Qc_is_canon, Qeq_bool_iff, H.
  - injection H as ->. apply Qeq_bool_iff, Qeq_refl.
Qed.

Lemma nmul_zero_r (a : Qc) : nmul (Some a) (Some 0) = Some 0.
Proof. simpl. f_equal. ring. Qed.

Lemma nround2_zero : nround2 (nmul (Some 0) (Some (Qc_of_Z 100))) = Some 0.
Proof. apply num_eqb_eq. reflexivity. Qed.

Lemma nsum_all_Some (l : list num) :
  Forall (fun v => v <> None) l -> nsum l = Some (pandas_sum l).
Proof.
  induction 1 as [| v t Hv _ IH]; simpl.
  - reflexivity.
  - destruct v as [x |]; [| congruence]. rewrite IH. reflexivity.
Qed.

(** Shares of a total add up to the total: the heart of conservation. *)
Lemma pandas_sum_shares (dv total : Qc) (l : list num) :
  total <> 0 ->
  pandas_sum (map (fun v => nmul (Some dv) (ndiv v (Some total))) l)
  = dv * (pandas_sum l / total).
Proof.
  intros Ht. set (share := fun v => nmul (Some dv) (ndiv v (Some total))).
  induction l as [| v t IH].
  - simpl. field. exact Ht.
  - cbn [map]. destruct v as [x |]; unfold share at 1; cbn [nmul ndiv nlift2 pandas_sum].
    + rewrite IH. field. exact Ht.
    + exact IH.
Qed.

Lemma nsum_NaN_shares (total : Qc) (l : list num) :
  l <> [] -> nsum (map (fun v => nmul None (ndiv v (Some total))) l) = None.
Proof.
  destruct l as [| v t]; [congruence | reflexivity].
Qed.

(** ** Identifiers *)

Lemma cell_eqb_eq (a b : option string) : cell_eqb a b = true -> a = b.
Proof.
  destruct a as [x |], b as [y |]; simpl; intros H; try discriminate H.
  apply String.eqb_eq in H. congruence.
Qed.

Lemma cell_eqb_Some (x : string) (a : option string) :
  cell_eqb a (Some x) = true <-> a = Some x.
Proof.
  split; [apply cell_eqb_eq |].
  intros ->. simpl. apply String.eqb_refl.
Qed.

Lemma cell_eqb_None_r (a : option string) : cell_eqb a None = false.
Proof. destruct a; reflexivity. Qed.

Lemma order_items_None (items : list (string * RawRow)) :
  order_items items None = [].
Proof.
  unfold order_items. induction items as [| b t IH]; simpl.
  - reflexivity.
  - rewrite cell_eqb_None_r. exact IH.
Qed.

Lemma matching_discount_None_order (drows : list RawRow) (iid : option string) :
  matching_discount drows None iid = [].
Proof.
  unfold matching_discount, same_item. induction drows as [| d t IH]; simpl.
  - reflexivity.
  - rewrite cell_eqb_None_r. simpl. exact IH.
Qed.

Lemma matching_discount_None_item (drows : list RawRow) (ono : option string) :
  matching_discount drows ono None = [].
Proof.
  unfold matching_discount, same_item. induction drows as [| d t IH]; simpl.
  - reflexivity.
  - rewrite cell_eqb_None_r, andb_false_r. exact IH.
Qed.

Lemma total_order_discount_None (cols : list string) (drows : list RawRow)
  (items : list (string * RawRow)) :
  total_order_discount cols drows items None = Ok (Some 0).
Proof.
  unfold total_order_discount. rewrite order_items_None. reflexivity.
Qed.

(** ** One iteration of the outer loop *)

Lemma process_row_Ok_inv (cols ints : list string) (drows : list RawRow)
  (items : list (string * RawRow)) (b : string * RawRow) (r : CleanedRecord) :
  process_row cols ints drows items b = Ok r ->
  exists total,
    total_order_discount cols drows items (order_number (snd b)) = Ok total /\
    out_order_number r = order_number (snd b) /\
    out_item_ref_id r = item_ref_id (snd b) /\
    item_total_price r = item_val b /\
    discount_amount r = nmul total (item_proportion ints items b) /\
    item_proportion_pct r
      = nround2 (nmul (item_proportion ints items b) (Some (Qc_of_Z 100))) /\
    discount_name r
      = match matching_discount drows (order_number (snd b))
                (item_ref_id (snd b)) with
        | d :: _ => discountName d
        | [] => Some EmptyString
        end /\
    final_paid_amount r
      = nsub (nsub (item_total_price r) (discount_amount r)) (points_redeemed r) /\
    Forall (fun c => In c cols) columns_read_per_item.
Proof.
  unfold process_row. intros H. ok_inv H. injection H as <-.
  exists a1. simpl. repeat (split; [first [reflexivity | eassumption] |]).
  repeat match goal with
         | Hg : getitem _ _ = Ok _ |- _ => apply getitem_Ok_inv in Hg
         end.
  unfold columns_read_per_item. repeat constructor; assumption.
Qed.

Lemma clean_Ok_inv (df : DataFrame) (out : list CleanedRecord) :
  clean_transaction_data df = Ok out ->
  Forall (fun c => In c (columns df)) columns_read_first /\
  Forall2 (fun b r => process_row (columns df) (int64_columns df)
                        (discount_rows (rows df))
                        (dedup (rows df)) b = Ok r)
          (dedup (rows df)) out.
Proof.
  unfold clean_transaction_data. intros H. ok_inv H.
  repeat match goal with
         | Hg : getitem _ _ = Ok _ |- _ => apply getitem_Ok_inv in Hg
         end.
  split; [unfold columns_read_first; repeat constructor; assumption |].
  apply mapM_Forall2, H.
Qed.

(** ** The order discount total *)

Lemma nadd_assoc (a b c : num) : nadd (nadd a b) c = nadd a (nadd b c).
Proof.
  destruct a as [x |], b as [y |], c as [z |]; simpl; try reflexivity.
  f_equal. ring.
Qed.

Lemma nadd_zero_l (a : num) : nadd (Some 0) a = a.
Proof. destruct a as [x |]; simpl; [f_equal; ring | reflexivity]. Qed.

Lemma nadd_zero_r (a : num) : nadd a (Some 0) = a.
Proof. destruct a as [x |]; simpl; [f_equal; ring | reflexivity]. Qed.

Lemma nonempty_filter_existsb {A : Type} (f : A -> bool) (l : list A) :
  (0 <? length (filter f l))%nat = existsb f l.
Proof.
  induction l as [| a t IH]; simpl.
  - reflexivity.
  - destruct (f a); simpl; [reflexivity | exact IH].
Qed.

Lemma matching_discount_gate (drows : list RawRow) (ono : option string)
  (b : string * RawRow) :
  (0 <? length (matching_discount drows ono (item_ref_id (snd b))))%nat
  = has_discount_row drows ono b.
Proof. apply nonempty_filter_existsb. Qed.

(** The loop adds to its accumulator the gaps of the gated items. *)
Lemma order_discount_loop_sum (cols : list string) (drows : list RawRow)
  (ono : option string) (items : list (string * RawRow)) :
  In "myr_paid_amount"%string cols ->
  forall acc,
    order_discount_loop cols drows ono items acc
    = Ok (nadd acc (nsum (map price_paid_gap
                            (filter (has_discount_row drows ono) items)))).
Proof.
  intros Hpaid. induction items as [| b t IH]; intros acc.
  - simpl. rewrite nadd_zero_r. reflexivity.
  - cbn [order_discount_loop filter]. rewrite matching_discount_gate.
    destruct (has_discount_row drows ono b).
    + rewrite (getitem_present _ _ Hpaid). cbn [bind map nsum fold_right].
      rewrite IH. unfold float. fold (price_paid_gap b).
      rewrite nadd_assoc. reflexivity.
    + apply IH.
Qed.

(** Without any gated item the loop reads no column. *)
Lemma order_discount_loop_ungated (cols : list string) (drows : list RawRow)
  (ono : option string) (items : list (string * RawRow)) (acc : num) :
  Forall (fun b => has_discount_row drows ono b = false) items ->
  order_discount_loop cols drows ono items acc = Ok acc.
Proof.
  induction 1 as [| b t Hb _ IH]; cbn [order_discount_loop].
  - reflexivity.
  - rewrite matching_discount_gate, Hb. exact IH.
Qed.

Lemma order_discount_loop_KeyError (cols : list string) (drows : list RawRow)
  (ono : option string) (items : list (string * RawRow)) (acc : num) (k : string) :
  order_discount_loop cols drows ono items acc = KeyError k ->
  k = "myr_paid_amount"%string /\ ~ In k cols.
Proof.
  revert acc. induction items as [| b t IH]; intros acc; cbn [order_discount_loop].
  - discriminate.
  - destruct (0 <? _)%nat; [| apply IH].
    destruct (getitem cols "myr_paid_amount") as [u | c] eqn:E; cbn [bind].
    + apply IH.
    + intros H. injection H as ->.
      apply getitem_KeyError_inv in E. destruct E as [-> E]. auto.
Qed.

(** The membership test reads the identifiers of the discount rows and nothing else. *)
Lemma same_item_ids (ono iid : option string) (d d' : RawRow) :
  ids d = ids d' -> same_item ono iid d = same_item ono iid d'.
Proof.
  unfold ids, same_item. intros H. injection H as -> ->. reflexivity.
Qed.

Lemma has_discount_row_ids (drows drows' : list RawRow) (ono : option string)
  (b : string * RawRow) :
  map ids drows' = map ids drows ->
  has_discount_row drows' ono b = has_discount_row drows ono b.
Proof.
  unfold has_discount_row. revert drows'.
  induction drows as [| d t IH]; intros [| d' t']; simpl; intros H;
    try discriminate H; [reflexivity |].
  assert (Hd : ids d' = ids d) by (injection H; intros; unfold ids; congruence).
  assert (Ht : map ids t' = map ids t) by (injection H; auto).
  rewrite (same_item_ids _ _ _ _ Hd), (IH _ Ht). reflexivity.
Qed.

Lemma order_discount_loop_ids (cols : list string) (drows drows' : list RawRow)
  (ono : option string) (items : list (string * RawRow)) (acc : num) :
  map ids drows' = map ids drows ->
  order_discount_loop cols drows' ono items acc
  = order_discount_loop cols drows ono items acc.
Proof.
  intros H. revert acc.
  induction items as [| b t IH]; intros acc; cbn [order_discount_loop].
  - reflexivity.
  - rewrite !matching_discount_gate, (has_discount_row_ids _ _ _ _ H).
    destruct (has_discount_row drows ono b); [| apply IH].
    destruct (getitem cols "myr_paid_amount"); cbn [bind]; [apply IH | reflexivity].
Qed.

Lemma has_discount_row_present (drows : list RawRow) (o i : string)
  (b : string * RawRow) :
  item_ref_id (snd b) = Some i ->
  has_discount_row drows (Some o) b = true
  <-> exists d, In d drows /\ ids d = (Some o, Some i).
Proof.
  intros Hi. unfold has_discount_row, same_item, ids. rewrite Hi, existsb_exists.
  split; intros (d & Hd & H); exists d; (split; [exact Hd |]).
  - apply andb_true_iff in H. destruct H as [H1 H2].
    apply cell_eqb_eq in H1. apply cell_eqb_eq in H2. congruence.
  - injection H as -> ->. simpl. rewrite !String.eqb_refl. reflexivity.
Qed.

Lemma has_discount_row_missing_item (drows : list RawRow) (ono : option string)
  (b : string * RawRow) :
  item_ref_id (snd b) = None -> has_discount_row drows ono b = false.
Proof.
  intros Hi. unfold has_discount_row. rewrite <- nonempty_filter_existsb, Hi.
  fold (matching_discount drows ono None).
  rewrite matching_discount_None_item. reflexivity.
Qed.

Lemma base_rows_of_filter (rs rs' : list RawRow) :
  filter (fun r => isna (discountName r)) rs'
  = filter (fun r => isna (discountName r)) rs ->
  filter (fun r => isna (discountName r)) rs <> [] ->
  base_rows rs' = base_rows rs.
Proof.
  intros E Hne. unfold base_rows. rewrite E.
  destruct (filter (fun r => isna (discountName r)) rs); [congruence |].
  reflexivity.
Qed.

(** C3, as the code has it.  For every order, the order discount total that
    the loop of lines 61-71 computes is the sum of (unit price * quantity -
    paid amount) over exactly those deduplicated items of the order that
    have at least one discount row whose order number and item identifier
    equal the item's own; the other items contribute nothing, and an item
    without item identifier is never one of them.  Provided the table has at
    least one row without discount name, no field of a discount row other
    than these two identifiers enters the total: it is the same for any
    table with the same columns, the same rows without discount name, and
    discount rows with the same identifiers. *)
Theorem order_discount_total_gated (df : DataFrame) (ono : option string) :
  In "myr_paid_amount"%string (columns df) ->
  total_order_discount (columns df) (discount_rows (rows df))
    (dedup (rows df)) ono
  = Ok (orderDiscountTotal_spec (discount_rows (rows df)) (dedup (rows df)) ono)
  /\ (forall o i b, ono = Some o -> item_ref_id (snd b) = Some i ->
        (has_discount_row (discount_rows (rows df)) ono b = true
         <-> exists d, In d (discount_rows (rows df))
                       /\ ids d = (Some o, Some i)))
  /\ (forall b, item_ref_id (snd b) = None ->
        has_discount_row (discount_rows (rows df)) ono b = false)
  /\ (forall df',
        columns df' = columns df ->
        filter (fun r => isna (discountName r)) (rows df')
        = filter (fun r => isna (discountName r)) (rows df) ->
        filter (fun r => isna (discountName r)) (rows df) <> [] ->
        map ids (discount_rows (rows df')) = map ids (discount_rows (rows df)) ->
        total_order_discount (columns df') (discount_rows (rows df'))
          (dedup (rows df')) ono
        = total_order_discount (columns df) (discount_rows (rows df))
            (dedup (rows df)) ono).
Proof.
  intros Hpaid. split; [| split; [| split]].
  - unfold total_order_discount, orderDiscountTotal_spec.
    rewrite (order_discount_loop_sum _ _ _ _ Hpaid), nadd_zero_l. reflexivity.
  - intros o i b -> Hi. apply has_discount_row_present, Hi.
  - intros b Hb. apply has_discount_row_missing_item, Hb.
  - intros df' Hc Hf Hne Hids. unfold total_order_discount, dedup.
    rewrite Hc, (base_rows_of_filter _ _ Hf Hne).
    apply order_discount_loop_ids, Hids.
Qed.

Lemma order_discount_total_gated_witness :
  In "myr_paid_amount"%string (columns scenario_B) /\
  total_order_discount (columns scenario_B) (discount_rows (rows scenario_B))
    (dedup (rows scenario_B)) (Some "O2"%string)
  = Ok (orderDiscountTotal_spec (discount_rows (rows scenario_B))
          (dedup (rows scenario_B)) (Some "O2"%string)) /\
  amount (orderDiscountTotal_spec (discount_rows (rows scenario_B))
            (dedup (rows scenario_B)) (Some "O2"%string)) = Some (20 # 1) /\
  total_order_discount (columns scenario_B_other_amounts)
    (discount_rows (rows scenario_B_other_amounts))
    (dedup (rows scenario_B_other_amounts)) (Some "O2"%string)
  = total_order_discount (columns scenario_B) (discount_rows (rows scenario_B))
      (dedup (rows scenario_B)) (Some "O2"%string).
Proof.
  assert (H : In "myr_paid_amount"%string (columns scenario_B)).
  { simpl. tauto. }
  destruct (order_discount_total_gated scenario_B (Some "O2"%string) H)
    as (Htotal & _ & _ & Hsame).
  split; [exact H |]. split; [exact Htotal |].
  split; [vm_compute; reflexivity |].
  apply (Hsame scenario_B_other_amounts); [reflexivity | reflexivity | | reflexivity].
  discriminate.
Defined.

(** C3 as stated fails when no row lacks a discount name: the discount rows
    are then the items themselves, and their paid amount enters the total.
    Two such tables that differ in the paid amount of their discount row
    only, 80 and 50 for a value of 100, have order discount totals 20 and
    50. *)
Lemma discount_row_amount_enters_total :
  discount_rows (rows (only_discount_row (q 80 1)))
  = rows (only_discount_row (q 80 1)) /\
  discount_rows (rows (only_discount_row (q 50 1)))
  = rows (only_discount_row (q 50 1)) /\
  map marker (rows (only_discount_row (q 80 1)))
  = map marker (rows (only_discount_row (q 50 1))) /\
  order_discount_amount (only_discount_row (q 80 1)) (Some "O2"%string)
  = Some (Some (20 # 1)) /\
  order_discount_amount (only_discount_row (q 50 1)) (Some "O2"%string)
  = Some (Some (50 # 1)).
Proof. repeat split; vm_compute; reflexivity. Qed.

(** ** The records of one order *)

Lemma order_items_order (items : list (string * RawRow)) (o : string)
  (b : string * RawRow) :
  In b (order_items items (Some o)) -> order_number (snd b) = Some o.
Proof.
  unfold order_items. intros H. apply filter_In in H.
  apply cell_eqb_eq, H.
Qed.

Lemma wrap64_small (z : Z) :
  (- 2 ^ 63 <= z < 2 ^ 63)%Z -> wrap64 z = z.
Proof.
  intros H. unfold wrap64. rewrite Z.mod_small; lia.
Qed.

Lemma wrap64_add_l (a b : Z) : wrap64 (wrap64 a + b) = wrap64 (a + b).
Proof.
  unfold wrap64. f_equal.
  replace ((a + 2 ^ 63) mod 2 ^ 64 - 2 ^ 63 + b + 2 ^ 63)%Z
    with ((a + 2 ^ 63) mod 2 ^ 64 + b)%Z by lia.
  rewrite Z.add_mod_idemp_l by lia. f_equal. lia.
Qed.

Lemma int64_add_wrap (a b : Z) :
  int64_add (wrap64 a) (wrap64 b) = wrap64 (a + b).
Proof.
  unfold int64_add. rewrite wrap64_add_l, (Z.add_comm a (wrap64 b)).
  rewrite wrap64_add_l. f_equal. lia.
Qed.

(** The wrapped sum of wrapped products is the exact sum, wrapped once. *)
Lemma int64_sum_wrap (l : list Z) (a : Z) :
  fold_left int64_add (map wrap64 l) (wrap64 a)
  = wrap64 (a + fold_right Z.add 0%Z l).
Proof.
  revert a. induction l as [| z t IH]; intros a; cbn [map fold_left fold_right].
  - f_equal. lia.
  - rewrite int64_add_wrap, IH. f_equal. lia.
Qed.

Lemma Qc_of_Z_plus (a b : Z) : Qc_of_Z (a + b) = Qc_of_Z a + Qc_of_Z b.
Proof.
  apply Qc_is_canon. rewrite this_plus, !this_Qc_of_Z, inject_Z_plus.
  reflexivity.
Qed.

Lemma Qc_of_Z_mult (a b : Z) : Qc_of_Z (a * b) = Qc_of_Z a * Qc_of_Z b.
Proof.
  apply Qc_is_canon. rewrite this_mult, !this_Qc_of_Z, inject_Z_mult.
  reflexivity.
Qed.

Lemma int64_of_cell (z : Z) : int64_of (Some (Qc_of_Z z)) = z.
Proof.
  unfold int64_of. rewrite this_Qc_of_Z. apply Qfloor_Z.
Qed.

Lemma order_items_total_None (ints : list string)
  (items : list (string * RawRow)) :
  order_items_total ints items None = 0.
Proof.
  unfold order_items_total. rewrite order_items_None.
  destruct (int64_product ints); reflexivity.
Qed.

(** Without wrap-around, line 50 computes the sum of the item values of
    lines 53-55. *)
Lemma order_items_total_sum (ints : list string)
  (items : list (string * RawRow)) (ono : option string) :
  total_without_wrap ints items ono ->
  order_items_total ints items ono
  = pandas_sum (map item_val (order_items items ono)).
Proof.
  unfold order_items_total. intros [Hf | [Hcells Hrange]].
  - rewrite Hf. reflexivity.
  - destruct (int64_product ints); [| reflexivity].
    unfold int64_sum, int64_mul.
    rewrite <- (map_map (fun b => (int64_of (myr_item_unit_amount (snd b))
                                   * int64_of (item_quantity (snd b)))%Z)
                        wrap64).
    change 0%Z with (wrap64 0) at 1. rewrite int64_sum_wrap, Z.add_0_l.
    fold (exact_int_total items ono).
    rewrite (wrap64_small _ Hrange). unfold exact_int_total.
    induction Hcells as [| b t [(p & Hp) (n & Hn)] _ IH];
      cbn [map fold_right pandas_sum]; [reflexivity |].
    unfold item_val at 1. unfold float. rewrite Hp, Hn.
    cbn [nmul nlift2]. rewrite !int64_of_cell, Qc_of_Z_plus, Qc_of_Z_mult.
    f_equal. exact IH.
Qed.

Lemma int64_order_without_wrap :
  total_without_wrap (int64_columns int64_order) (dedup (rows int64_order))
    (Some "O6"%string).
Proof.
  right. split.
  - assert (E : order_items (dedup (rows int64_order)) (Some "O6"%string)
                = dedup (rows int64_order)) by reflexivity.
    rewrite E. unfold int64_cell.
    repeat constructor; cbn [snd]; eexists; reflexivity.
  - vm_compute. split; [discriminate | reflexivity].
Qed.

Lemma records_of_order_rows (df : DataFrame) (out : list CleanedRecord)
  (ono : option string) :
  clean_transaction_data df = Ok out ->
  Forall2 (fun b r => process_row (columns df) (int64_columns df)
                        (discount_rows (rows df))
                        (dedup (rows df)) b = Ok r)
          (order_items (dedup (rows df)) ono) (records_of_order ono out).
Proof.
  intros H. apply clean_Ok_inv in H. destruct H as [_ H].
  unfold order_items, records_of_order. apply Forall2_filter.
  eapply Forall2_impl; [| exact H].
  intros b r Hbr. split; [exact Hbr |].
  apply process_row_Ok_inv in Hbr. destruct Hbr as (t & _ & -> & _).
  reflexivity.
Qed.

(** With a positive item value sum, every record of the order receives the
    order discount times its share. *)
Lemma discount_amount_shares (df : DataFrame) (out : list CleanedRecord)
  (o : string) (d : num) :
  clean_transaction_data df = Ok out ->
  0 < order_items_total (int64_columns df) (dedup (rows df)) (Some o) ->
  total_order_discount (columns df) (discount_rows (rows df))
    (dedup (rows df)) (Some o) = Ok d ->
  map discount_amount (records_of_order (Some o) out)
  = map (fun v => nmul d (ndiv v (Some (order_items_total (int64_columns df) (dedup (rows df)) (Some o)))))
        (map item_val (order_items (dedup (rows df)) (Some o))).
Proof.
  intros Hout Hpos Hd.
  pose proof (records_of_order_rows df out (Some o) Hout) as HF.
  assert (Hin : forall b, In b (order_items (dedup (rows df)) (Some o)) ->
                          order_number (snd b) = Some o)
    by (intros b; apply order_items_order).
  induction HF as [| b r t t' Hbr _ IH]; [reflexivity |].
  cbn [map]. f_equal.
  - apply process_row_Ok_inv in Hbr.
    destruct Hbr as (total & Ht & _ & _ & _ & -> & _).
    assert (Ho : order_number (snd b) = Some o) by (apply Hin; left; reflexivity).
    rewrite Ho, Hd in Ht. injection Ht as <-.
    unfold item_proportion. rewrite Ho.
    apply Qcltb_lt in Hpos. rewrite Hpos. reflexivity.
  - apply IH. intros x Hx. apply Hin. right. exact Hx.
Qed.

Lemma positive_total_nonempty (ints : list string) (items : list (string * RawRow)) (ono : option string) :
  0 < order_items_total ints items ono -> order_items items ono <> [].
Proof.
  unfold order_items_total. intros H E. rewrite E in H.
  destruct (int64_product ints); exact (Qclt_not_eq _ _ H eq_refl).
Qed.

Lemma item_val_present (l : list (string * RawRow)) :
  Forall (fun b => myr_item_unit_amount (snd b) <> None
                   /\ item_quantity (snd b) <> None) l ->
  Forall (fun v => v <> None) (map item_val l).
Proof.
  induction 1 as [| b t [Hp Hq] _ IH]; simpl; constructor; [| exact IH].
  unfold item_val, float.
  destruct (myr_item_unit_amount (snd b)); [| congruence].
  destruct (item_quantity (snd b)); [discriminate | congruence].
Qed.

Lemma shares_present (d : Qc) (total : Qc) (l : list num) :
  Forall (fun v => v <> None) l ->
  Forall (fun v => v <> None)
         (map (fun v => nmul (Some d) (ndiv v (Some total))) l).
Proof.
  induction 1 as [| v t Hv _ IH]; simpl; constructor; [| exact IH].
  destruct v; [discriminate | congruence].
Qed.

(** C6. Every output record satisfies
    final_paid_amount = item_total_price - discount_amount - points_redeemed,
    as an identity between the emitted field values. *)
Theorem final_amount_formula (df : DataFrame) (out : list CleanedRecord)
  (r : CleanedRecord) :
  clean_transaction_data df = Ok out ->
  In r out ->
  final_paid_amount r
  = nsub (nsub (item_total_price r) (discount_amount r)) (points_redeemed r).
Proof.
  intros Hout Hr. apply clean_Ok_inv in Hout. destruct Hout as [_ HF].
  destruct (Forall2_In_r _ _ _ _ HF Hr) as (b & _ & Hb).
  apply process_row_Ok_inv in Hb.
  destruct Hb as (t & _ & _ & _ & _ & _ & _ & _ & Hfinal & _).
  exact Hfinal.
Qed.

Lemma conservation_of_order (df : DataFrame) (out : list CleanedRecord)
  (o : string) :
  clean_transaction_data df = Ok out ->
  0 < order_items_total (int64_columns df) (dedup (rows df)) (Some o) ->
  total_without_wrap (int64_columns df) (dedup (rows df)) (Some o) ->
  exists d,
    total_order_discount (columns df) (discount_rows (rows df))
      (dedup (rows df)) (Some o) = Ok d /\
    (Forall (fun b => myr_item_unit_amount (snd b) <> None
                      /\ item_quantity (snd b) <> None)
            (order_items (dedup (rows df)) (Some o)) ->
     nsum (map discount_amount (records_of_order (Some o) out)) = d) /\
    (forall dv, d = Some dv ->
       pandas_sum (map discount_amount (records_of_order (Some o) out)) = dv).
Proof.
  intros Hout Hpos Hexact.
  pose proof (positive_total_nonempty _ _ _ Hpos) as Hne.
  assert (Hd : exists d, total_order_discount (columns df)
                 (discount_rows (rows df)) (dedup (rows df)) (Some o) = Ok d).
  { destruct (order_items (dedup (rows df)) (Some o)) as [| b t] eqn:E;
      [congruence |].
    pose proof (records_of_order_rows df out (Some o) Hout) as HF.
    rewrite E in HF. inversion HF as [| ? r ? ? Hbr _]; subst.
    apply process_row_Ok_inv in Hbr. destruct Hbr as (total & Ht & _).
    assert (Ho : order_number (snd b) = Some o).
    { apply (order_items_order (dedup (rows df))). rewrite E. left. reflexivity. }
    rewrite Ho in Ht. exists total. exact Ht. }
  destruct Hd as (d & Hd). exists d. split; [exact Hd |].
  rewrite (discount_amount_shares df out o d Hout Hpos Hd).
  assert (Hnz : order_items_total (int64_columns df) (dedup (rows df)) (Some o) <> 0).
  { intros E. rewrite E in Hpos. exact (Qclt_not_eq _ _ Hpos eq_refl). }
  assert (Hsum : forall dv, d = Some dv ->
            pandas_sum (map (fun v => nmul d (ndiv v
                          (Some (order_items_total (int64_columns df) (dedup (rows df)) (Some o)))))
                          (map item_val (order_items (dedup (rows df)) (Some o))))
            = dv).
  { intros dv ->. rewrite (pandas_sum_shares _ _ _ Hnz).
    rewrite <- (order_items_total_sum _ _ _ Hexact). field. exact Hnz. }
  split; [| exact Hsum].
  intros Hpresent. destruct d as [dv |].
  - rewrite nsum_all_Some; [f_equal; apply Hsum; reflexivity |].
    apply shares_present, item_val_present, Hpresent.
  - apply nsum_NaN_shares. intros E. apply map_eq_nil in E. exact (Hne E).
Qed.


(** C2. Conservation fails where line 50 wraps around.  In the order O8 the
    columns are int64; the product 2^32 * 2^32 of item A wraps to 0, so the
    order value sum of line 50 is 10, that of item B alone, where the item
    values of lines 53-55 add up to 2^64 + 10.  The order discount total is
    6, the gap of item B; the amounts allocated are 6 * 2^64 / 10 and 6, and
    their sum is not 6.  Without wrap-around the sum is the order discount
    total ([conservation_of_order]). *)
Theorem conservation_lost_to_int64_wrap :
  is_ok (clean_transaction_data overflow_order) = true /\
  amount (Some (order_items_total (int64_columns overflow_order)
                  (dedup (rows overflow_order)) (Some "O8"%string)))
  = Some (10 # 1) /\
  amount (Some (pandas_sum (map item_val
                              (order_items (dedup (rows overflow_order))
                                 (Some "O8"%string)))))
  = Some (18446744073709551626 # 1) /\
  order_discount_amount overflow_order (Some "O8"%string)
  = Some (Some (6 # 1)) /\
  map (fun r => amount (discount_amount r))
      (records_of_order (Some "O8"%string)
         (value (clean_transaction_data overflow_order)))
  = [Some (55340232221128654848 # 5); Some (6 # 1)] /\
  amount (nsum (map discount_amount
                  (records_of_order (Some "O8"%string)
                     (value (clean_transaction_data overflow_order)))))
  = Some (55340232221128654878 # 5).
Proof. repeat split; vm_compute; reflexivity. Qed.

(** ** Complete tables never fail *)

Lemma value_Ok {A : Type} (m : result (list A)) :
  is_ok m = true -> m = Ok (value m).
Proof. destruct m; simpl; [reflexivity | discriminate]. Qed.

Ltac present Hc :=
  repeat (rewrite getitem_present; [| apply Hc; simpl; tauto]); cbn [bind].

Lemma process_row_complete (cols ints : list string) (drows : list RawRow)
  (items : list (string * RawRow)) (b : string * RawRow) :
  incl required_columns cols ->
  exists r, process_row cols ints drows items b = Ok r.
Proof.
  intros Hc. unfold process_row, total_order_discount.
  rewrite order_discount_loop_sum by (apply Hc; simpl; tauto).
  present Hc. eexists. reflexivity.
Qed.

Lemma clean_complete (df : DataFrame) :
  complete df -> exists out, clean_transaction_data df = Ok out.
Proof.
  intros Hc. unfold clean_transaction_data. present Hc.
  apply mapM_total. intros b _. apply process_row_complete, Hc.
Qed.

Lemma complete_frame (rs : list RawRow) : complete (frame rs).
Proof. intros c Hc. exact Hc. Qed.

(** ** The drop case *)

Lemma nsum_zeros (l : list num) :
  Forall (fun v => v = Some 0) l -> nsum l = Some 0.
Proof.
  induction 1 as [| v t -> _ IH]; cbn [nsum fold_right]; [reflexivity |].
  fold (nsum t). rewrite IH. apply nadd_zero_l.
Qed.

Lemma drop_case_of_order (df : DataFrame) (o : string) :
  complete df ->
  order_items_total (int64_columns df) (dedup (rows df)) (Some o) = 0 ->
  order_discount_positive (columns df) (discount_rows (rows df))
    (dedup (rows df)) (Some o) = true ->
  exists out,
    clean_transaction_data df = Ok out /\
    Forall (fun b => item_proportion (int64_columns df) (dedup (rows df)) b = Some 0)
           (order_items (dedup (rows df)) (Some o)) /\
    Forall (fun r => discount_amount r = Some 0
                     /\ item_proportion_pct r = Some 0)
           (records_of_order (Some o) out) /\
    nsum (map discount_amount (records_of_order (Some o) out)) = Some 0.
Proof.
  intros Hc Hzero Hpos.
  destruct (clean_complete df Hc) as (out & Hout). exists out.
  split; [exact Hout |].
  assert (Hprop : forall b, In b (order_items (dedup (rows df)) (Some o)) ->
                            item_proportion (int64_columns df) (dedup (rows df)) b = Some 0).
  { intros b Hb. unfold item_proportion.
    rewrite (order_items_order _ _ _ Hb), Hzero, Qcltb_irrefl. reflexivity. }
  assert (Hrec : Forall (fun r => discount_amount r = Some 0
                                  /\ item_proportion_pct r = Some 0)
                        (records_of_order (Some o) out)).
  { apply Forall_forall. intros r Hr.
    pose proof (records_of_order_rows df out (Some o) Hout) as HF.
    destruct (Forall2_In_r _ _ _ _ HF Hr) as (b & Hb & Hbr).
    apply process_row_Ok_inv in Hbr.
    destruct Hbr as (total & Ht & _ & _ & _ & -> & -> & _).
    rewrite (Hprop b Hb). split; [| apply nround2_zero].
    unfold order_discount_positive in Hpos.
    rewrite (order_items_order _ _ _ Hb) in Ht. rewrite Ht in Hpos.
    destruct total as [d |]; [apply nmul_zero_r | discriminate Hpos]. }
  split; [apply Forall_forall; exact Hprop |].
  split; [exact Hrec |].
  apply nsum_zeros. apply Forall_forall. intros v Hv.
  apply in_map_iff in Hv. destruct Hv as (r & <- & Hr).
  rewrite Forall_forall in Hrec. apply (Hrec r Hr).
Qed.

(** C4. Drop case: for an order whose item value sum is 0 and whose order
    discount total is greater than 0, the function returns normally, every
    item of the order has proportion 0, every record of the order has
    discount amount 0 and proportion percentage 0, and so the amounts
    allocated to the order add up to 0: the order discount reaches no item. *)
Theorem zero_value_order_drops_discount (df : DataFrame)
  (ono : option string) :
  complete df ->
  order_items_total (int64_columns df) (dedup (rows df)) ono = 0 ->
  order_discount_positive (columns df) (discount_rows (rows df))
    (dedup (rows df)) ono = true ->
  exists out,
    clean_transaction_data df = Ok out /\
    Forall (fun b => item_proportion (int64_columns df) (dedup (rows df)) b = Some 0)
           (order_items (dedup (rows df)) ono) /\
    Forall (fun r => discount_amount r = Some 0
                     /\ item_proportion_pct r = Some 0)
           (records_of_order ono out) /\
    nsum (map discount_amount (records_of_order ono out)) = Some 0.
Proof.
  intros Hc Hzero Hpos. destruct ono as [o |].
  - exact (drop_case_of_order df o Hc Hzero Hpos).
  - exfalso. unfold order_discount_positive in Hpos.
    rewrite total_order_discount_None, Qcltb_irrefl in Hpos. discriminate Hpos.
Qed.

Lemma zero_value_order_drops_discount_witness :
  complete free_item_order /\
  order_items_total (int64_columns free_item_order) (dedup (rows free_item_order)) (Some "O3"%string) = 0 /\
  order_discount_positive (columns free_item_order)
    (discount_rows (rows free_item_order)) (dedup (rows free_item_order))
    (Some "O3"%string) = true /\
  exists out,
    clean_transaction_data free_item_order = Ok out /\
    Forall (fun b => item_proportion (int64_columns free_item_order) (dedup (rows free_item_order)) b = Some 0)
           (order_items (dedup (rows free_item_order)) (Some "O3"%string)) /\
    Forall (fun r => discount_amount r = Some 0
                     /\ item_proportion_pct r = Some 0)
           (records_of_order (Some "O3"%string) out) /\
    nsum (map discount_amount (records_of_order (Some "O3"%string) out)) = Some 0.
Proof.
  assert (Hc : complete free_item_order) by apply complete_frame.
  assert (Hz : order_items_total (int64_columns free_item_order) (dedup (rows free_item_order))
                 (Some "O3"%string) = 0).
  { apply Qc_is_canon. vm_compute. reflexivity. }
  assert (Hp : order_discount_positive (columns free_item_order)
                 (discount_rows (rows free_item_order))
                 (dedup (rows free_item_order)) (Some "O3"%string) = true).
  { vm_compute. reflexivity. }
  split; [exact Hc |]. split; [exact Hz |]. split; [exact Hp |].
  exact (zero_value_order_drops_discount free_item_order (Some "O3"%string) Hc Hz Hp).
Defined.

Lemma final_amount_formula_witness :
  match value (clean_transaction_data scenario_B) with
  | r :: _ =>
      In r (value (clean_transaction_data scenario_B)) /\
      final_paid_amount r
      = nsub (nsub (item_total_price r) (discount_amount r)) (points_redeemed r)
  | [] => False
  end.
Proof.
  assert (H : clean_transaction_data scenario_B
              = Ok (value (clean_transaction_data scenario_B))).
  { apply value_Ok. vm_compute. reflexivity. }
  destruct (value (clean_transaction_data scenario_B)) as [| r t] eqn:E.
  - vm_compute in E. discriminate E.
  - split; [left; reflexivity |].
    apply (final_amount_formula scenario_B (r :: t) r H). left. reflexivity.
Defined.


(** ** Row partitioning *)

Lemma notna_true {A : Type} (c : option A) : notna c = true <-> c <> None.
Proof. destruct c; simpl; split; congruence. Qed.

Lemma isna_true {A : Type} (c : option A) : isna c = true <-> c = None.
Proof. destruct c; unfold isna; simpl; split; congruence. Qed.

Lemma filter_nil_none {A : Type} (f : A -> bool) (l : list A) :
  filter f l = [] <-> forall a, In a l -> f a = false.
Proof.
  induction l as [| a t IH]; simpl.
  - split; [intros _ x [] | reflexivity].
  - destruct (f a) eqn:E; split.
    + discriminate.
    + intros H. specialize (H a (or_introl eq_refl)). congruence.
    + intros H x [<- | Hx]; [exact E | apply IH; assumption].
    + intros H. apply IH. intros x Hx. apply H. right. exact Hx.
Qed.

Lemma base_rows_cases (rs : list RawRow) :
  (filter (fun r => isna (discountName r)) rs = [] /\ base_rows rs = rs)
  \/ (filter (fun r => isna (discountName r)) rs <> []
      /\ base_rows rs = filter (fun r => isna (discountName r)) rs).
Proof.
  unfold base_rows.
  destruct (filter (fun r => isna (discountName r)) rs) as [| a t] eqn:E; simpl.
  - left. split; reflexivity.
  - right. split; [discriminate | reflexivity].
Qed.

(** C7, as the code has it.  A raw row is a discount row exactly when its
    discount name is not missing, the empty string included; it is a base
    row exactly when its discount name is missing, or when no row of the
    table has a missing discount name (then every row is a base row). *)
Theorem row_partitioning (rs : list RawRow) (r : RawRow) :
  (In r (discount_rows rs) <-> In r rs /\ discountName r <> None) /\
  (In r (base_rows rs)
   <-> In r rs /\ (discountName r = None
                   \/ forall r', In r' rs -> discountName r' <> None)).
Proof.
  split.
  - unfold discount_rows. rewrite filter_In, notna_true. reflexivity.
  - destruct (base_rows_cases rs) as [[Hnil ->] | [Hne ->]].
    + rewrite filter_nil_none in Hnil. split.
      * intros Hr. split; [exact Hr |]. right. intros r' Hr' E.
        apply isna_true in E. rewrite (Hnil r' Hr') in E. discriminate E.
      * intros [Hr _]. exact Hr.
    + rewrite filter_In, isna_true. split.
      * intros [Hr E]. auto.
      * intros [Hr [E | Hall]]; [auto |]. exfalso. apply Hne.
        apply filter_nil_none. intros a Ha.
        destruct (isna (discountName a)) eqn:Ea; [| reflexivity].
        apply isna_true in Ea. exfalso. exact (Hall a Ha Ea).
Qed.

(** C7 as stated fails: a row whose discount name is the empty string is
    placed among the discount rows and not among the base rows. *)
Lemma empty_marker_is_discount_row :
  discountName empty_marker_row = Some EmptyString /\
  discount_rows [empty_marker_row; plain_row] = [empty_marker_row] /\
  base_rows [empty_marker_row; plain_row] = [plain_row].
Proof. repeat split. Qed.

(** ** One record per key of the base rows *)

Lemma dedup_keys (rs : list RawRow) :
  map fst (dedup rs) = group_keys (base_rows rs).
Proof. apply groupby_first_keys. Qed.

Lemma clean_records_ids (df : DataFrame) (out : list CleanedRecord) :
  clean_transaction_data df = Ok out ->
  Forall2 (fun b r => out_order_number r = order_number (snd b)
                      /\ out_item_ref_id r = item_ref_id (snd b))
          (dedup (rows df)) out.
Proof.
  intros H. apply clean_Ok_inv in H. destruct H as [_ H].
  eapply Forall2_impl; [| exact H].
  intros b r Hbr. apply process_row_Ok_inv in Hbr.
  destruct Hbr as (t & _ & Ho & Hi & _). auto.
Qed.

(** C1, as the code has it.  The output has exactly one record per distinct
    unique key of the base rows (the rows without discount name, or all rows
    when there are none): the records correspond one to one, in order, to
    the deduplicated items, whose keys are pairwise distinct and are exactly
    the keys that occur among the base rows.  Hence a key that occurs only
    among rows with a discount name has no deduplicated item, and so no
    record, as soon as one row of the table has no discount name. *)
Theorem one_record_per_base_key (df : DataFrame) (out : list CleanedRecord) :
  clean_transaction_data df = Ok out ->
  Forall2 (fun b r => out_order_number r = order_number (snd b)
                      /\ out_item_ref_id r = item_ref_id (snd b))
          (dedup (rows df)) out /\
  NoDup (map fst (dedup (rows df))) /\
  (forall k, In k (map fst (dedup (rows df)))
             <-> exists r, In r (base_rows (rows df)) /\ unique_key r = k) /\
  length out
  = length (nodup string_dec (map unique_key (base_rows (rows df)))) /\
  (filter (fun r => isna (discountName r)) (rows df) <> [] ->
   forall k,
     (forall r, In r (rows df) -> unique_key r = k -> discountName r <> None) ->
     ~ In k (map fst (dedup (rows df)))).
Proof.
  intros H. pose proof (clean_records_ids df out H) as HF.
  split; [exact HF |]. rewrite dedup_keys.
  split; [apply group_keys_NoDup |].
  split; [intros k; apply group_keys_In |].
  split.
  - rewrite <- (Forall2_length HF), <- (length_map fst), dedup_keys.
    unfold group_keys. apply Permutation_length, sort_keys_perm.
  - intros Hne k Honly Hk. apply group_keys_In in Hk.
    destruct Hk as (r & Hr & Hkey).
    destruct (base_rows_cases (rows df)) as [[Hnil _] | [_ E]];
      [congruence |].
    rewrite E in Hr. apply filter_In in Hr. destruct Hr as [Hin Hna].
    apply isna_true in Hna. exact (Honly r Hin Hkey Hna).
Qed.

Lemma one_record_per_base_key_witness :
  clean_transaction_data discount_only_item
  = Ok (value (clean_transaction_data discount_only_item)) /\
  map fst (dedup (rows discount_only_item)) = ["O1_A"%string] /\
  length (value (clean_transaction_data discount_only_item)) = 1%nat /\
  ~ In "O1_B"%string (map fst (dedup (rows discount_only_item))).
Proof.
  assert (H : clean_transaction_data discount_only_item
              = Ok (value (clean_transaction_data discount_only_item))).
  { apply value_Ok. vm_compute. reflexivity. }
  split; [exact H |]. split; [vm_compute; reflexivity |].
  destruct (one_record_per_base_key discount_only_item _ H)
    as (_ & _ & _ & Hlen & Honly).
  split; [rewrite Hlen; vm_compute; reflexivity |].
  apply Honly; [discriminate |].
  intros r Hr Hkey. simpl in Hr. destruct Hr as [<- | [<- | []]].
  - vm_compute in Hkey. discriminate Hkey.
  - discriminate.
Defined.

(** C1 as stated fails: the pair (O1, B) occurs in an input row, a discount
    row, and no output record carries it. *)
Lemma discount_only_item_has_no_record :
  In (row (Some "O1") (Some "B") (q 1 1) (q 5 1) (q 15 1) (q 4 1) None
        (Some "PROMO"))%string (rows discount_only_item) /\
  is_ok (clean_transaction_data discount_only_item) = true /\
  length (records_with_ids (Some "O1", Some "B")%string
            (value (clean_transaction_data discount_only_item))) = 0%nat /\
  map (fun r => (out_order_number r, out_item_ref_id r))
      (value (clean_transaction_data discount_only_item))
  = [(Some "O1", Some "A")]%string.
Proof.
  split; [right; left; reflexivity |].
  split; [vm_compute; reflexivity |].
  split; vm_compute; reflexivity.
Qed.

(** ** Deduplication: the first valid value of every column *)

Lemma filter_head {A : Type} (f : A -> bool) (l : list A) (x : A) (t : list A) :
  filter f l = x :: t ->
  exists before after,
    l = before ++ x :: after
    /\ Forall (fun a => f a = false) before /\ f x = true.
Proof.
  induction l as [| a l' IH]; simpl; intros H.
  - discriminate H.
  - destruct (f a) eqn:E.
    + injection H as -> _. exists [], l'. repeat split; [constructor | exact E].
    + destruct (IH H) as (before & after & -> & Hb & Hx).
      exists (a :: before), after. repeat split; [constructor; assumption | exact Hx].
Qed.

Lemma dedup_In (rs : list RawRow) (k : string) (b : RawRow) :
  In (k, b) (dedup rs) ->
  In k (group_keys (base_rows rs))
  /\ b = first_of_group (group k (base_rows rs)).
Proof.
  unfold dedup, groupby_first. intros H. apply in_map_iff in H.
  destruct H as (k' & E & Hk). injection E as -> <-. auto.
Qed.

Lemma group_nonempty (rs : list RawRow) (k : string) :
  In k (group_keys rs) -> group k rs <> [].
Proof.
  intros H. apply group_keys_In in H. destruct H as (r & Hr & Hk).
  intros E. unfold group in E. rewrite filter_nil_none in E.
  specialize (E r Hr). rewrite Hk, String.eqb_refl in E. discriminate E.
Qed.

(** The base rows either all lack the discount name or all have one. *)
Lemma base_rows_marker (rs : list RawRow) :
  Forall (fun r => discountName r = None) (base_rows rs)
  \/ Forall (fun r => discountName r <> None) (base_rows rs).
Proof.
  destruct (base_rows_cases rs) as [[Hnil ->] | [_ ->]].
  - right. rewrite filter_nil_none in Hnil. apply Forall_forall.
    intros r Hr E. apply isna_true in E. rewrite (Hnil r Hr) in E.
    discriminate E.
  - left. apply Forall_forall. intros r Hr. apply filter_In in Hr.
    apply isna_true, Hr.
Qed.

Lemma first_valid_all_None {A : Type} (l : list (option A)) :
  Forall (fun c => c = None) l -> first_valid l = None.
Proof. induction 1 as [| c t -> _ IH]; simpl; [reflexivity | exact IH]. Qed.

Lemma first_valid_head {A : Type} (c : option A) (t : list (option A)) :
  c <> None -> first_valid (c :: t) = c.
Proof. destruct c; simpl; congruence. Qed.






(** ** Missing columns *)

Lemma bind_getitem_KeyError {B : Type} (cols : list string) (c : string)
  (k : unit -> result B) (key : string) :
  bind (getitem cols c) k = KeyError key ->
  (key = c /\ ~ In c cols) \/ k tt = KeyError key.
Proof.
  destruct (getitem cols c) as [[] | c'] eqn:E; cbn [bind]; intros H.
  - right. exact H.
  - left. injection H as ->. apply getitem_KeyError_inv, E.
Qed.

Ltac key_inv H :=
  repeat (apply bind_getitem_KeyError in H;
          destruct H as [[-> H] | H]; [split; [simpl; tauto | exact H] |]).

Lemma process_row_KeyError_inv (cols ints : list string) (drows : list RawRow)
  (items : list (string * RawRow)) (b : string * RawRow) (k : string) :
  process_row cols ints drows items b = KeyError k ->
  In k required_columns /\ ~ In k cols.
Proof.
  unfold process_row. intros H. key_inv H.
  destruct (total_order_discount cols drows items (order_number (snd b)))
    as [total | c] eqn:E; cbn [bind] in H.
  - key_inv H. discriminate H.
  - injection H as ->. apply order_discount_loop_KeyError in E.
    destruct E as [-> E]. split; [simpl; tauto | exact E].
Qed.

Lemma clean_KeyError_inv (df : DataFrame) (k : string) :
  clean_transaction_data df = KeyError k ->
  In k required_columns /\ ~ In k (columns df).
Proof.
  unfold clean_transaction_data. intros H. key_inv H.
  apply mapM_KeyError_inv in H. destruct H as (b & _ & H).
  apply process_row_KeyError_inv in H. exact H.
Qed.

Lemma base_rows_nonempty (rs : list RawRow) : rs <> [] -> base_rows rs <> [].
Proof.
  intros H. destruct (base_rows_cases rs) as [[_ ->] | [Hne ->]]; assumption.
Qed.

Lemma dedup_nonempty (rs : list RawRow) : rs <> [] -> dedup rs <> [].
Proof.
  intros H. apply base_rows_nonempty in H.
  destruct (base_rows rs) as [| r t] eqn:E; [congruence |].
  assert (Hk : In (unique_key r) (map fst (dedup rs))).
  { rewrite dedup_keys, E. apply group_keys_In. exists r.
    split; [left; reflexivity | reflexivity]. }
  intros E'. rewrite E' in Hk. exact Hk.
Qed.

(** C8, as the code has it.  The function has no schema check of its own:
    a missing column shows when the column is first read, as the KeyError of
    pandas, which names a missing expected column, and then nothing is
    returned.  This happens whenever order_number, item_ref_id or
    discountName is missing, and, for a table with at least one row, whenever
    a column that every iteration reads is missing. *)
Theorem missing_column_raises_KeyError (df : DataFrame) :
  (forall k, clean_transaction_data df = KeyError k ->
             In k required_columns /\ ~ In k (columns df)) /\
  (forall c, In c columns_read_first -> ~ In c (columns df) ->
             exists k, clean_transaction_data df = KeyError k) /\
  (forall c, In c columns_read_per_item -> ~ In c (columns df) ->
             rows df <> [] ->
             exists k, clean_transaction_data df = KeyError k).
Proof.
  split; [intros k; apply clean_KeyError_inv |].
  split.
  - intros c Hc Hn. destruct (clean_transaction_data df) as [out | k] eqn:E;
      [exfalso | exists k; reflexivity].
    apply clean_Ok_inv in E. destruct E as [E _].
    rewrite Forall_forall in E. exact (Hn (E c Hc)).
  - intros c Hc Hn Hrows.
    destruct (clean_transaction_data df) as [out | k] eqn:E;
      [exfalso | exists k; reflexivity].
    apply clean_Ok_inv in E. destruct E as [_ E].
    pose proof (dedup_nonempty _ Hrows) as Hne.
    remember (dedup (rows df)) as items eqn:Ei in E at 2.
    destruct E as [| b r t t' Hbr _]; [congruence |].
    apply process_row_Ok_inv in Hbr.
    destruct Hbr as (total & _ & _ & _ & _ & _ & _ & _ & _ & Hcols).
    rewrite Forall_forall in Hcols. exact (Hn (Hcols c Hc)).
Qed.

Lemma missing_column_raises_KeyError_witness :
  clean_transaction_data
    {| columns := [ "order_number"; "item_ref_id"; "discountName" ]%string;
       int64_columns := [];
       rows := [plain_row] |}
  = KeyError "myr_item_unit_amount"%string /\
  In "myr_item_unit_amount"%string required_columns.
Proof.
  set (df := {| columns := [ "order_number"; "item_ref_id"; "discountName" ]%string;
                int64_columns := [];
                rows := [plain_row] |}).
  assert (E : clean_transaction_data df = KeyError "myr_item_unit_amount"%string)
    by (vm_compute; reflexivity).
  split; [exact E |].
  exact (proj1 (proj1 (missing_column_raises_KeyError df) _ E)).
Defined.

(** C8 as stated fails: a table with a row and without the paid amount
    column is processed to the end, and so is an empty table that lacks
    nine of the expected columns. *)
Lemma missing_paid_column_is_not_an_error :
  In "myr_paid_amount"%string required_columns /\
  ~ In "myr_paid_amount"%string (columns no_paid_column) /\
  is_ok (clean_transaction_data no_paid_column) = true /\
  length (value (clean_transaction_data no_paid_column)) = 1%nat /\
  clean_transaction_data empty_table = Ok [].
Proof.
  split; [simpl; tauto |].
  split.
  { simpl. intros H. repeat (destruct H as [H | H]; [discriminate H |]). exact H. }
  repeat split; vm_compute; reflexivity.
Qed.

(** ** Missing identifiers *)

Lemma item_proportion_None (ints : list string) (items : list (string * RawRow))
  (b : string * RawRow) :
  order_number (snd b) = None -> item_proportion ints items b = Some 0.
Proof.
  intros H. unfold item_proportion.
  rewrite H, order_items_total_None. reflexivity.
Qed.

(** C9, as the code has it.  On a table with all its columns the function
    returns normally whatever identifiers are missing.  A missing identifier
    enters the key as the text nan, every key of a base row has its
    deduplicated item and every deduplicated item its record, so such rows
    are kept.  But the order group and the
    discount rows are selected by comparing the identifiers themselves, and
    a missing identifier equals nothing: the order group of an item without
    order number is empty, its record gets discount amount 0, proportion 0
    and no discount name, and an item without item identifier never gets a
    discount name and never counts towards the order discount total. *)
Theorem missing_identifiers (df : DataFrame) :
  complete df ->
  exists out,
    clean_transaction_data df = Ok out /\
    length out = length (dedup (rows df)) /\
    (forall r, In r (base_rows (rows df)) ->
               In (unique_key r) (map fst (dedup (rows df)))) /\
    (forall r, order_number r = None ->
               unique_key r = ("nan_" ++ astype_str (item_ref_id r))%string) /\
    (forall r, item_ref_id r = None ->
               unique_key r = (astype_str (order_number r) ++ "_nan")%string) /\
    order_items (dedup (rows df)) None = [] /\
    (forall c, In c out -> out_order_number c = None ->
               discount_amount c = Some 0
               /\ item_proportion_pct c = Some 0
               /\ discount_name c = Some EmptyString) /\
    (forall c, In c out -> out_item_ref_id c = None ->
               discount_name c = Some EmptyString) /\
    (forall ono b, item_ref_id (snd b) = None ->
                   has_discount_row (discount_rows (rows df)) ono b = false).
Proof.
  intros Hc. destruct (clean_complete df Hc) as (out & Hout). exists out.
  split; [exact Hout |].
  pose proof (clean_Ok_inv df out Hout) as [_ HF].
  split; [symmetry; exact (Forall2_length HF) |].
  split.
  { intros r Hr. rewrite dedup_keys. apply group_keys_In. exists r. auto. }
  split; [intros r H; unfold unique_key; rewrite H; reflexivity |].
  split; [intros r H; unfold unique_key; rewrite H; reflexivity |].
  split; [apply order_items_None |].
  split.
  - intros c Hin Hnone.
    destruct (Forall2_In_r _ _ _ _ HF Hin) as (b & _ & Hb).
    apply process_row_Ok_inv in Hb.
    destruct Hb as (total & Ht & Ho & _ & _ & -> & -> & -> & _).
    rewrite Hnone in Ho. symmetry in Ho.
    rewrite Ho, total_order_discount_None in Ht. injection Ht as <-.
    rewrite (item_proportion_None _ _ _ Ho), Ho, matching_discount_None_order.
    split; [apply nmul_zero_r |]. split; [apply nround2_zero | reflexivity].
  - split; [| intros ono b; apply has_discount_row_missing_item].
    intros c Hin Hnone.
    destruct (Forall2_In_r _ _ _ _ HF Hin) as (b & _ & Hb).
    apply process_row_Ok_inv in Hb.
    destruct Hb as (total & _ & _ & Hi & _ & _ & _ & -> & _).
    rewrite Hnone in Hi. rewrite <- Hi, matching_discount_None_item.
    reflexivity.
Qed.

Lemma missing_identifiers_witness :
  complete (two_items None) /\
  map fst (dedup (rows (two_items None))) = ["nan_I1"; "nan_I2"]%string /\
  exists out,
    clean_transaction_data (two_items None) = Ok out /\
    length out = length (dedup (rows (two_items None))) /\
    (forall r, In r (base_rows (rows (two_items None))) ->
               In (unique_key r) (map fst (dedup (rows (two_items None))))) /\
    (forall r, order_number r = None ->
               unique_key r = ("nan_" ++ astype_str (item_ref_id r))%string) /\
    (forall r, item_ref_id r = None ->
               unique_key r = (astype_str (order_number r) ++ "_nan")%string) /\
    order_items (dedup (rows (two_items None))) None = [] /\
    (forall c, In c out -> out_order_number c = None ->
               discount_amount c = Some 0
               /\ item_proportion_pct c = Some 0
               /\ discount_name c = Some EmptyString) /\
    (forall c, In c out -> out_item_ref_id c = None ->
               discount_name c = Some EmptyString) /\
    (forall ono b, item_ref_id (snd b) = None ->
                   has_discount_row (discount_rows (rows (two_items None)))
                     ono b = false).
Proof.
  assert (Hc : complete (two_items None)) by apply complete_frame.
  split; [exact Hc |]. split; [vm_compute; reflexivity |].
  exact (missing_identifiers (two_items None) Hc).
Defined.

(** C9 as stated fails: two items without order number do not form one
    order.  Each gets proportion 0 of an empty order, where the same two
    items under an order number, even the text nan, get 50 each. *)
Lemma missing_order_number_is_no_order :
  map fst (dedup (rows (two_items None))) = ["nan_I1"; "nan_I2"]%string /\
  order_items (dedup (rows (two_items None))) None = [] /\
  map (fun r => amount (item_proportion_pct r))
      (value (clean_transaction_data (two_items None)))
  = [Some (0 # 1); Some (0 # 1)] /\
  map (fun r => amount (item_proportion_pct r))
      (value (clean_transaction_data (two_items (Some "nan"%string))))
  = [Some (50 # 1); Some (50 # 1)].
Proof. repeat split; vm_compute; reflexivity. Qed.

(** ** The key is not injective *)

(** C10. The key used for deduplication is the order number, an underscore
    and the item identifier, concatenated as strings.  It is not injective:
    the pairs (a_b, c) and (a, b_c) differ and have the same key, and a
    table made of these two rows yields a single record, that of the first. *)
Theorem unique_key_not_injective :
  (forall r, unique_key r
             = (astype_str (order_number r) ++ "_"
                ++ astype_str (item_ref_id r))%string) /\
  ids left_row = (Some "a_b", Some "c")%string /\
  ids right_row = (Some "a", Some "b_c")%string /\
  ids left_row <> ids right_row /\
  unique_key left_row = unique_key right_row /\
  is_ok (clean_transaction_data (frame [left_row; right_row])) = true /\
  map (fun r => (out_order_number r, out_item_ref_id r,
                 amount (item_unit_price r)))
      (value (clean_transaction_data (frame [left_row; right_row])))
  = [(Some "a_b", Some "c", Some (10 # 1))]%string.
Proof.
  split; [intros r; reflexivity |].
  split; [reflexivity |]. split; [reflexivity |].
  split; [discriminate |].
  repeat split; vm_compute; reflexivity.
Qed.

(** * Further properties of the function and of the page around it *)

(** ** What a record carries *)

Lemma process_row_fields (cols ints : list string) (drows : list RawRow)
  (items : list (string * RawRow)) (b : string * RawRow) (r : CleanedRecord) :
  process_row cols ints drows items b = Ok r ->
  out_created_at_myt r = created_at_myt (snd b) /\
  out_customer_email r = customer_email (snd b) /\
  out_CarrierCode r = CarrierCode (snd b) /\
  out_item_name r = item_name (snd b) /\
  out_item_quantity r = item_quantity (snd b) /\
  item_unit_price r = myr_item_unit_amount (snd b) /\
  order_total r = myr_total_amount (snd b) /\
  points_redeemed r
  = (if notna (myr_points_redeemed_value (snd b))
     then myr_points_redeemed_value (snd b) else Some 0).
Proof.
  unfold process_row. intros H. ok_inv H. injection H as <-.
  simpl. repeat split.
Qed.

Lemma clean_record_source (df : DataFrame) (out : list CleanedRecord)
  (r : CleanedRecord) :
  clean_transaction_data df = Ok out ->
  In r out ->
  exists b, In b (dedup (rows df))
            /\ process_row (columns df) (int64_columns df)
                        (discount_rows (rows df))
                 (dedup (rows df)) b = Ok r.
Proof.
  intros Hout Hr. apply clean_Ok_inv in Hout. destruct Hout as [_ HF].
  exact (Forall2_In_r _ _ _ _ HF Hr).
Qed.

(** X1. The records correspond one to one, in order, to the deduplicated
    items, and each record takes its amounts from its own item: the unit
    price and the quantity are the item's, the item total is their product,
    and the points redeemed are never missing: they are the points of the
    item, or 0 when the item has none. *)
Theorem record_amounts (df : DataFrame) (out : list CleanedRecord) :
  clean_transaction_data df = Ok out ->
  Forall2 (fun b r =>
             item_unit_price r = myr_item_unit_amount (snd b) /\
             out_item_quantity r = item_quantity (snd b) /\
             item_total_price r
             = nmul (item_unit_price r) (out_item_quantity r) /\
             points_redeemed r <> None /\
             (myr_points_redeemed_value (snd b) = None ->
              points_redeemed r = Some 0) /\
             (myr_points_redeemed_value (snd b) <> None ->
              points_redeemed r = myr_points_redeemed_value (snd b)))
          (dedup (rows df)) out.
Proof.
  intros Hout. apply clean_Ok_inv in Hout. destruct Hout as [_ HF].
  eapply Forall2_impl; [| exact HF].
  intros b r Hbr. cbv beta in Hbr.
  pose proof (process_row_fields _ _ _ _ _ _ Hbr)
    as (_ & _ & _ & _ & Hq & Hp & _ & Hpts).
  apply process_row_Ok_inv in Hbr.
  destruct Hbr as (total & _ & _ & _ & Hit & _).
  split; [exact Hp |]. split; [exact Hq |].
  split; [rewrite Hit, Hp, Hq; reflexivity |].
  rewrite Hpts.
  destruct (myr_points_redeemed_value (snd b)); simpl;
    repeat split; congruence.
Qed.

Lemma record_amounts_witness :
  clean_transaction_data unsorted_table
  = Ok (value (clean_transaction_data unsorted_table)) /\
  map (fun b => amount (myr_points_redeemed_value (snd b)))
      (dedup (rows unsorted_table)) = [None; Some (1 # 1); None] /\
  map (fun r => amount (points_redeemed r))
      (value (clean_transaction_data unsorted_table))
  = [Some (0 # 1); Some (1 # 1); Some (0 # 1)] /\
  Forall2 (fun b r => item_total_price r
                      = nmul (item_unit_price r) (out_item_quantity r))
          (dedup (rows unsorted_table))
          (value (clean_transaction_data unsorted_table)).
Proof.
  assert (H : clean_transaction_data unsorted_table
              = Ok (value (clean_transaction_data unsorted_table))).
  { apply value_Ok. vm_compute. reflexivity. }
  split; [exact H |].
  split; [vm_compute; reflexivity |].
  split; [vm_compute; reflexivity |].
  eapply Forall2_impl; [| exact (record_amounts unsorted_table _ H)].
  intros b r (_ & _ & Ht & _). exact Ht.
Defined.

(** ** The discount name of a record *)

(** X2. The discount name of a record is never missing.  It is the name of
    the first discount row, in input order, whose order number and item
    identifier equal those of the record, and the empty string when no
    discount row has them. *)
Theorem discount_name_first_match (df : DataFrame) (out : list CleanedRecord)
  (r : CleanedRecord) :
  clean_transaction_data df = Ok out ->
  In r out ->
  discount_name r <> None /\
  ((Forall (fun d => same_item (out_order_number r) (out_item_ref_id r) d = false)
           (discount_rows (rows df))
    /\ discount_name r = Some EmptyString)
   \/ exists d before after,
        discount_rows (rows df) = before ++ d :: after /\
        Forall (fun d' => same_item (out_order_number r) (out_item_ref_id r) d'
                          = false) before /\
        same_item (out_order_number r) (out_item_ref_id r) d = true /\
        discount_name r = discountName d).
Proof.
  intros Hout Hr. destruct (clean_record_source df out r Hout Hr) as (b & Hb & Hbr).
  apply process_row_Ok_inv in Hbr.
  destruct Hbr as (total & _ & Ho & Hi & _ & _ & _ & Hname & _).
  rewrite <- Ho, <- Hi in Hname. unfold matching_discount in Hname.
  destruct (filter (same_item (out_order_number r) (out_item_ref_id r))
              (discount_rows (rows df))) as [| d t] eqn:E.
  - split; [rewrite Hname; discriminate |]. left. split; [| exact Hname].
    apply Forall_forall. apply filter_nil_none, E.
  - assert (Hd : In d (discount_rows (rows df))).
    { assert (Hin : In d (d :: t)) by (left; reflexivity).
      rewrite <- E in Hin. apply filter_In in Hin. apply Hin. }
    split.
    + rewrite Hname. unfold discount_rows in Hd. apply filter_In in Hd.
      apply notna_true, Hd.
    + right. apply filter_head in E.
      destruct E as (before & after & Hsplit & Hbefore & Hmatch).
      exists d, before, after. auto.
Qed.

Lemma discount_name_first_match_witness :
  map discount_name (value (clean_transaction_data all_discounted))
  = [Some "FIRST"; Some "THIRD"]%string /\
  match value (clean_transaction_data all_discounted) with
  | r :: _ => discount_name r <> None
  | [] => False
  end.
Proof.
  assert (H : clean_transaction_data all_discounted
              = Ok (value (clean_transaction_data all_discounted))).
  { apply value_Ok. vm_compute. reflexivity. }
  split; [vm_compute; reflexivity |].
  destruct (value (clean_transaction_data all_discounted)) as [| r t] eqn:E.
  - vm_compute in E. discriminate E.
  - exact (proj1 (discount_name_first_match all_discounted (r :: t) r H
                    (or_introl eq_refl))).
Defined.

(** ** Orders without discount rows *)

Lemma has_discount_row_no_order (drows : list RawRow) (ono : option string)
  (b : string * RawRow) :
  (forall d, In d drows -> cell_eqb (order_number d) ono = false) ->
  has_discount_row drows ono b = false.
Proof.
  intros H. unfold has_discount_row.
  destruct (existsb _ drows) eqn:E; [| reflexivity].
  apply existsb_exists in E. destruct E as (d & Hd & Hs).
  unfold same_item in Hs. rewrite (H d Hd) in Hs. discriminate Hs.
Qed.

Lemma item_proportion_present (ints : list string) (items : list (string * RawRow))
  (b : string * RawRow) :
  item_val b <> None -> item_proportion ints items b <> None.
Proof.
  unfold item_proportion. intros H.
  destruct (Qcltb 0 _); [| discriminate].
  destruct (item_val b); [discriminate | congruence].
Qed.

Lemma nmul_zero_l (a : num) : a <> None -> nmul (Some 0) a = Some 0.
Proof.
  destruct a as [x |]; [| congruence]. intros _. simpl. f_equal. ring.
Qed.

Lemma nsub_zero_r (a : num) : nsub a (Some 0) = a.
Proof. destruct a as [x |]; simpl; [f_equal; ring | reflexivity]. Qed.

(** X3. An order without discount rows is left as it is: when no discount
    row carries the order number of a record, the record has the empty
    discount name, its discount amount is 0 as soon as its item total is a
    number, and its final paid amount is the item total minus the points.
    The paid amount column is not even needed. *)
Theorem undiscounted_order_untouched (df : DataFrame) (out : list CleanedRecord)
  (r : CleanedRecord) :
  clean_transaction_data df = Ok out ->
  In r out ->
  (forall d, In d (discount_rows (rows df)) ->
             cell_eqb (order_number d) (out_order_number r) = false) ->
  discount_name r = Some EmptyString /\
  (item_total_price r <> None -> discount_amount r = Some 0) /\
  final_paid_amount r = nsub (item_total_price r) (points_redeemed r).
Proof.
  intros Hout Hr Hno.
  destruct (clean_record_source df out r Hout Hr) as (b & Hb & Hbr).
  apply process_row_Ok_inv in Hbr.
  destruct Hbr as (total & Ht & Ho & Hi & Hit & Hd & _ & Hname & Hfinal & _).
  rewrite <- Ho in Ht, Hname.
  assert (Htotal : total = Some 0).
  { unfold total_order_discount in Ht.
    rewrite order_discount_loop_ungated in Ht; [congruence |].
    apply Forall_forall. intros x _. apply has_discount_row_no_order, Hno. }
  subst total.
  assert (Hnomatch : matching_discount (discount_rows (rows df))
                       (out_order_number r) (item_ref_id (snd b)) = []).
  { unfold matching_discount. apply filter_nil_none. intros d Hdr.
    unfold same_item. rewrite (Hno d Hdr). reflexivity. }
  rewrite Hnomatch in Hname.
  split; [exact Hname |].
  assert (Hzero : item_total_price r <> None -> discount_amount r = Some 0).
  { intros Hpresent. rewrite Hd. apply nmul_zero_l, item_proportion_present.
    rewrite <- Hit. exact Hpresent. }
  split; [exact Hzero |].
  rewrite Hfinal. destruct (item_total_price r) as [x |] eqn:Ex.
  - rewrite Hzero by discriminate. rewrite nsub_zero_r. reflexivity.
  - reflexivity.
Qed.

Lemma undiscounted_order_untouched_witness :
  match value (clean_transaction_data unsorted_table) with
  | r :: _ =>
      out_order_number r = Some "O1"%string /\
      discount_name r = Some EmptyString /\
      (item_total_price r <> None -> discount_amount r = Some 0) /\
      final_paid_amount r = nsub (item_total_price r) (points_redeemed r)
  | [] => False
  end.
Proof.
  assert (H : clean_transaction_data unsorted_table
              = Ok (value (clean_transaction_data unsorted_table))).
  { apply value_Ok. vm_compute. reflexivity. }
  destruct (value (clean_transaction_data unsorted_table)) as [| r t] eqn:E.
  - vm_compute in E. discriminate E.
  - assert (Ho : out_order_number r = Some "O1"%string).
    { vm_compute in E. injection E as <- _. reflexivity. }
    split; [exact Ho |].
    apply (undiscounted_order_untouched unsorted_table (r :: t) r H
             (or_introl eq_refl)).
    intros d Hd. rewrite Ho. simpl in Hd.
    destruct Hd as [<- | []]. reflexivity.
Defined.

(** ** The number of records *)

Lemma base_rows_length (rs : list RawRow) :
  (length (base_rows rs) <= length rs)%nat.
Proof.
  destruct (base_rows_cases rs) as [[_ ->] | [_ ->]];
    [apply Nat.le_refl | apply filter_length_le].
Qed.

Lemma dedup_length (rs : list RawRow) :
  length (dedup rs) = length (nodup string_dec (map unique_key (base_rows rs))).
Proof.
  rewrite <- (length_map fst), dedup_keys. unfold group_keys.
  apply Permutation_length, sort_keys_perm.
Qed.

(** X4. Cleaning never adds rows: the output has at most as many records as
    the table has base rows, hence at most as many as the table has rows,
    and it is empty exactly when the table is empty. *)
Theorem output_no_longer_than_input (df : DataFrame) (out : list CleanedRecord) :
  clean_transaction_data df = Ok out ->
  (length out <= length (base_rows (rows df)))%nat /\
  (length out <= length (rows df))%nat /\
  (out = [] <-> rows df = []).
Proof.
  intros Hout. pose proof (clean_Ok_inv df out Hout) as [_ HF].
  pose proof (Forall2_length HF) as Hlen.
  assert (Hb : (length out <= length (base_rows (rows df)))%nat).
  { rewrite <- Hlen, dedup_length.
    rewrite <- (length_map unique_key (base_rows (rows df))).
    apply NoDup_incl_length; [apply NoDup_nodup |].
    intros k Hk. apply nodup_In in Hk. exact Hk. }
  split; [exact Hb |].
  split; [eapply Nat.le_trans; [exact Hb | apply base_rows_length] |].
  split.
  - intros ->. destruct (rows df) as [| r t] eqn:E; [reflexivity |].
    exfalso. apply (dedup_nonempty (r :: t)); [discriminate |].
    destruct (dedup (r :: t)); [reflexivity | discriminate Hlen].
  - intros E. rewrite E in Hlen. destruct out; [reflexivity | discriminate Hlen].
Qed.

Lemma output_no_longer_than_input_witness :
  clean_transaction_data unsorted_table
  = Ok (value (clean_transaction_data unsorted_table)) /\
  length (value (clean_transaction_data unsorted_table)) = 3%nat /\
  length (rows unsorted_table) = 4%nat /\
  (length (value (clean_transaction_data unsorted_table))
   <= length (rows unsorted_table))%nat.
Proof.
  assert (H : clean_transaction_data unsorted_table
              = Ok (value (clean_transaction_data unsorted_table))).
  { apply value_Ok. vm_compute. reflexivity. }
  split; [exact H |]. split; [vm_compute; reflexivity |].
  split; [reflexivity |].
  exact (proj1 (proj2 (output_no_longer_than_input unsorted_table _ H))).
Defined.

(** ** The order of the records *)

Lemma dedup_identified (rs : list RawRow) (k : string) (b : RawRow) :
  Forall identified (base_rows rs) ->
  In (k, b) (dedup rs) ->
  unique_key b = k /\ identified b.
Proof.
  intros Hid H. apply dedup_In in H. destruct H as [Hk ->].
  pose proof (group_nonempty _ _ Hk) as Hne.
  destruct (group k (base_rows rs)) as [| r0 rest] eqn:E; [congruence |].
  assert (Hin : In r0 (group k (base_rows rs))) by (rewrite E; left; reflexivity).
  unfold group in Hin. apply filter_In in Hin. destruct Hin as [Hr0 Hkey].
  apply String.eqb_eq in Hkey.
  rewrite Forall_forall in Hid. destruct (Hid r0 Hr0) as [Ho Hi].
  assert (Eo : order_number (first_of_group (r0 :: rest)) = order_number r0)
    by (apply first_valid_head, Ho).
  assert (Ei : item_ref_id (first_of_group (r0 :: rest)) = item_ref_id r0)
    by (apply first_valid_head, Hi).
  split.
  - unfold unique_key. rewrite Eo, Ei. exact Hkey.
  - unfold identified. rewrite Eo, Ei. auto.
Qed.

Lemma record_keys_of_items (items : list (string * RawRow))
  (out : list CleanedRecord) :
  Forall2 (fun b r => out_order_number r = order_number (snd b)
                      /\ out_item_ref_id r = item_ref_id (snd b)) items out ->
  (forall b, In b items -> unique_key (snd b) = fst b) ->
  map record_key out = map fst items.
Proof.
  induction 1 as [| b r t t' [Ho Hi] _ IH]; intros Hkeys; [reflexivity |].
  cbn [map]. f_equal.
  - unfold record_key. rewrite Ho, Hi. apply Hkeys. left. reflexivity.
  - apply IH. intros x Hx. apply Hkeys. right. exact Hx.
Qed.

Lemma record_keys_of_identified (df : DataFrame) (out : list CleanedRecord) :
  clean_transaction_data df = Ok out ->
  Forall identified (base_rows (rows df)) ->
  map record_key out = group_keys (base_rows (rows df)).
Proof.
  intros Hout Hid. rewrite <- dedup_keys.
  apply record_keys_of_items; [apply clean_records_ids, Hout |].
  intros [k b] Hb. apply (dedup_identified _ _ _ Hid Hb).
Qed.

(** X5. The records come out in ascending order of their key (order number,
    underscore, item identifier, compared as strings), whatever the order of
    the input rows, and no two records have the same key; this for a table
    whose base rows all have both identifiers. *)
Theorem output_sorted_by_key (df : DataFrame) (out : list CleanedRecord) :
  clean_transaction_data df = Ok out ->
  Forall identified (base_rows (rows df)) ->
  Sorted key_le (map record_key out) /\
  NoDup (map record_key out) /\
  (forall k, In k (map record_key out)
             <-> exists r, In r (base_rows (rows df)) /\ unique_key r = k).
Proof.
  intros Hout Hid. rewrite (record_keys_of_identified df out Hout Hid).
  split; [apply sort_keys_sorted |].
  split; [apply group_keys_NoDup | intros k; apply group_keys_In].
Qed.

Lemma output_sorted_by_key_witness :
  clean_transaction_data unsorted_table
  = Ok (value (clean_transaction_data unsorted_table)) /\
  map unique_key (rows unsorted_table)
  = ["O9_Z"; "O9_B"; "O9_B"; "O1_M"]%string /\
  map record_key (value (clean_transaction_data unsorted_table))
  = ["O1_M"; "O9_B"; "O9_Z"]%string /\
  Sorted key_le (map record_key (value (clean_transaction_data unsorted_table))).
Proof.
  assert (H : clean_transaction_data unsorted_table
              = Ok (value (clean_transaction_data unsorted_table))).
  { apply value_Ok. vm_compute. reflexivity. }
  assert (Hid : Forall identified (base_rows (rows unsorted_table))).
  { repeat constructor; discriminate. }
  split; [exact H |]. split; [reflexivity |].
  split; [vm_compute; reflexivity |].
  exact (proj1 (output_sorted_by_key unsorted_table _ H Hid)).
Defined.

(** ** Deduplication of rows that are already unique *)

Lemma first_valid_singleton {A : Type} (c : option A) : first_valid [c] = c.
Proof. destruct c; reflexivity. Qed.

Lemma first_of_group_singleton (r : RawRow) : first_of_group [r] = r.
Proof.
  unfold first_of_group. cbn [map].
  rewrite !(@first_valid_singleton string), !(@first_valid_singleton Qc).
  destruct r; reflexivity.
Qed.

Lemma group_singleton (rs : list RawRow) (r : RawRow) :
  NoDup (map unique_key rs) -> In r rs -> group (unique_key r) rs = [r].
Proof.
  unfold group. induction rs as [| a t IH]; cbn [map filter In]; intros Hnd Hr.
  - contradiction.
  - apply NoDup_cons_iff in Hnd. destruct Hnd as [Ha Hnd].
    destruct Hr as [-> | Hr].
    + rewrite String.eqb_refl. f_equal. apply filter_nil_none.
      intros x Hx. apply String.eqb_neq. intros E. apply Ha.
      rewrite <- E. apply in_map, Hx.
    + assert (Hne : unique_key a <> unique_key r).
      { intros E. apply Ha. rewrite E. apply in_map, Hr. }
      apply String.eqb_neq in Hne. rewrite Hne. apply IH; assumption.
Qed.

Lemma groupby_first_unique (rs : list RawRow) :
  NoDup (map unique_key rs) ->
  Permutation (map snd (groupby_first rs)) rs.
Proof.
  intros Hnd. unfold groupby_first. rewrite map_map. cbn [snd].
  unfold group_keys. rewrite (nodup_fixed_point string_dec Hnd).
  eapply perm_trans.
  - apply Permutation_map, sort_keys_perm.
  - rewrite map_map.
    rewrite (map_ext_in _ (fun r => r)); [rewrite map_id; apply Permutation_refl |].
    intros r Hr. rewrite (group_singleton rs r Hnd Hr).
    apply first_of_group_singleton.
Qed.

(** X6. Deduplication loses and alters nothing when there is nothing to
    merge: if the base rows have pairwise distinct keys, the deduplicated
    items are exactly the base rows, rearranged in key order. *)
Theorem dedup_of_unique_rows (rs : list RawRow) :
  NoDup (map unique_key (base_rows rs)) ->
  Permutation (map snd (dedup rs)) (base_rows rs) /\
  Sorted key_le (map fst (dedup rs)) /\
  Forall (fun b => unique_key (snd b) = fst b) (dedup rs).
Proof.
  intros Hnd. split; [apply groupby_first_unique, Hnd |].
  split; [rewrite dedup_keys; apply sort_keys_sorted |].
  apply Forall_forall. intros [k b] Hb. apply dedup_In in Hb.
  destruct Hb as [Hk ->]. apply group_keys_In in Hk.
  destruct Hk as (r & Hr & <-).
  rewrite (group_singleton _ r Hnd Hr), first_of_group_singleton. reflexivity.
Qed.

Lemma dedup_of_unique_rows_witness :
  NoDup (map unique_key (base_rows (rows (two_items (Some "O1"%string))))) /\
  Permutation (map snd (dedup (rows (two_items (Some "O1"%string)))))
              (base_rows (rows (two_items (Some "O1"%string)))).
Proof.
  assert (H : NoDup (map unique_key
                       (base_rows (rows (two_items (Some "O1"%string)))))).
  { simpl. repeat constructor; simpl; intuition discriminate. }
  split; [exact H |].
  exact (proj1 (dedup_of_unique_rows _ H)).
Defined.

(** ** Deduplicating twice *)

Lemma sort_keys_of_sorted (l : list string) :
  Sorted key_le l -> sort_keys l = l.
Proof.
  induction l as [| a l IH]; intros Hs; [reflexivity |].
  inversion Hs as [| ? ? Hl Hhd]; subst.
  cbn [sort_keys fold_right]. fold (sort_keys l). rewrite (IH Hl).
  destruct l as [| h t]; [reflexivity |].
  inversion Hhd as [| ? ? Hle]; subst. simpl. unfold key_le in Hle.
  rewrite Hle. reflexivity.
Qed.

Lemma filter_all {A : Type} (f : A -> bool) (l : list A) :
  (forall a, In a l -> f a = true) -> filter f l = l.
Proof.
  induction l as [| a t IH]; intros H; [reflexivity |].
  cbn [filter]. rewrite (H a (or_introl eq_refl)). f_equal.
  apply IH. intros x Hx. apply H. right. exact Hx.
Qed.

Lemma base_rows_of_uniform (l : list RawRow) :
  Forall (fun r => discountName r = None) l
  \/ Forall (fun r => discountName r <> None) l ->
  base_rows l = l.
Proof.
  intros [H | H]; rewrite Forall_forall in H; unfold base_rows.
  - rewrite filter_all; [destruct (length l =? 0)%nat; reflexivity |].
    intros a Ha. apply isna_true, H, Ha.
  - replace (filter (fun r => isna (discountName r)) l) with (@nil RawRow);
      [reflexivity |].
    symmetry. apply filter_nil_none. intros a Ha.
    destruct (isna (discountName a)) eqn:E; [| reflexivity].
    apply isna_true in E. exfalso. exact (H a Ha E).
Qed.

Lemma dedup_marker (rs : list RawRow) :
  Forall (fun r => discountName r = None) (map snd (dedup rs))
  \/ Forall (fun r => discountName r <> None) (map snd (dedup rs)).
Proof.
  assert (Hsrc : forall b, In b (map snd (dedup rs)) ->
            exists k r0 rest, group k (base_rows rs) = r0 :: rest
                              /\ b = first_of_group (r0 :: rest)).
  { intros b Hb. apply in_map_iff in Hb. destruct Hb as ([k b'] & <- & Hb).
    apply dedup_In in Hb. destruct Hb as [Hk ->].
    pose proof (group_nonempty _ _ Hk) as Hne.
    destruct (group k (base_rows rs)) as [| r0 rest] eqn:E; [congruence |].
    exists k, r0, rest. rewrite <- E. auto. }
  assert (Hsub : forall k r, In r (group k (base_rows rs)) -> In r (base_rows rs)).
  { intros k r Hr. unfold group in Hr. apply filter_In in Hr. apply Hr. }
  destruct (base_rows_marker rs) as [Hall | Hall]; rewrite Forall_forall in Hall.
  - left. apply Forall_forall. intros b Hb.
    destruct (Hsrc b Hb) as (k & r0 & rest & E & ->).
    cbn [first_of_group discountName]. apply first_valid_all_None.
    apply Forall_forall. intros c Hc. apply in_map_iff in Hc.
    destruct Hc as (r & <- & Hr). apply Hall, (Hsub k). rewrite E. exact Hr.
  - right. apply Forall_forall. intros b Hb.
    destruct (Hsrc b Hb) as (k & r0 & rest & E & ->).
    cbn [first_of_group discountName map].
    assert (Hr0 : discountName r0 <> None).
    { apply Hall, (Hsub k). rewrite E. left. reflexivity. }
    rewrite (first_valid_head _ _ Hr0). exact Hr0.
Qed.

(** X7. Deduplication is idempotent: for a table whose base rows all have
    both identifiers, deduplicating the deduplicated items returns them
    unchanged and in the same order. *)
Theorem dedup_idempotent (rs : list RawRow) :
  Forall identified (base_rows rs) ->
  dedup (map snd (dedup rs)) = dedup rs.
Proof.
  intros Hid.
  assert (Hkey : forall b, In b (dedup rs) -> unique_key (snd b) = fst b).
  { intros [k b] Hb. apply (dedup_identified _ _ _ Hid Hb). }
  assert (Hkeys : map unique_key (map snd (dedup rs)) = group_keys (base_rows rs)).
  { rewrite <- dedup_keys, map_map. apply map_ext_in. exact Hkey. }
  assert (Hnd : NoDup (map unique_key (map snd (dedup rs))))
    by (rewrite Hkeys; apply group_keys_NoDup).
  unfold dedup at 1. rewrite (base_rows_of_uniform _ (dedup_marker rs)).
  unfold groupby_first at 1. unfold group_keys at 1.
  rewrite (nodup_fixed_point string_dec Hnd), Hkeys.
  rewrite (sort_keys_of_sorted (group_keys (base_rows rs)))
    by (unfold group_keys; apply sort_keys_sorted).
  unfold dedup at 2. unfold groupby_first.
  apply map_ext_in. intros k Hk. f_equal.
  set (b := first_of_group (group k (base_rows rs))).
  assert (Hb : In (k, b) (dedup rs)).
  { unfold dedup, groupby_first. apply in_map_iff. exists k. auto. }
  assert (Hbk : unique_key b = k) by (apply (Hkey (k, b) Hb)).
  rewrite <- Hbk at 1.
  rewrite (group_singleton _ b Hnd); [apply first_of_group_singleton |].
  apply in_map_iff. exists (k, b). auto.
Qed.

Lemma dedup_idempotent_witness :
  Forall identified (base_rows (rows unsorted_table)) /\
  dedup (map snd (dedup (rows unsorted_table))) = dedup (rows unsorted_table).
Proof.
  assert (Hid : Forall identified (base_rows (rows unsorted_table))).
  { repeat constructor; discriminate. }
  split; [exact Hid | exact (dedup_idempotent _ Hid)].
Defined.

(** ** Proportions *)

Lemma pandas_sum_ndiv (total : Qc) (l : list num) :
  pandas_sum (map (fun v => ndiv v (Some total)) l) = pandas_sum l / total.
Proof.
  induction l as [| v t IH].
  - simpl. unfold Qcdiv. ring.
  - cbn [map]. destruct v as [x |]; cbn [ndiv nlift2 pandas_sum].
    + rewrite IH. unfold Qcdiv. ring.
    + exact IH.
Qed.

Lemma item_proportion_share (ints : list string) (items : list (string * RawRow)) (o : string)
  (b : string * RawRow) :
  0 < order_items_total ints items (Some o) ->
  In b (order_items items (Some o)) ->
  item_proportion ints items b
  = ndiv (item_val b) (Some (order_items_total ints items (Some o))).
Proof.
  intros Hpos Hb. unfold item_proportion.
  rewrite (order_items_order _ _ _ Hb).
  apply Qcltb_lt in Hpos. rewrite Hpos. reflexivity.
Qed.

(** X8. For every order whose item value sum is strictly positive and is
    computed by line 50 without wrap-around, the proportions of its items
    (before rounding to a percentage) add up to 1; items whose value is
    missing are skipped by both sums. *)
Theorem proportions_sum_to_one (df : DataFrame) (ono : option string) :
  0 < order_items_total (int64_columns df) (dedup (rows df)) ono ->
  total_without_wrap (int64_columns df) (dedup (rows df)) ono ->
  pandas_sum (map (item_proportion (int64_columns df) (dedup (rows df)))
                (order_items (dedup (rows df)) ono)) = 1.
Proof.
  intros Hpos Hexact. destruct ono as [o |].
  - rewrite (map_ext_in _ (fun b => ndiv (item_val b)
                              (Some (order_items_total (int64_columns df)
                                       (dedup (rows df)) (Some o))))).
    + rewrite <- (map_map item_val (fun v => ndiv v _)), pandas_sum_ndiv.
      rewrite <- (order_items_total_sum _ _ _ Hexact). field.
      intros E. rewrite E in Hpos. exact (Qclt_not_eq _ _ Hpos eq_refl).
    + intros b Hb. apply item_proportion_share; assumption.
  - exfalso. rewrite order_items_total_None in Hpos.
    exact (Qclt_not_eq _ _ Hpos eq_refl).
Qed.

Lemma proportions_sum_to_one_witness :
  0 < order_items_total (int64_columns int64_order) (dedup (rows int64_order))
        (Some "O6"%string) /\
  total_without_wrap (int64_columns int64_order) (dedup (rows int64_order))
    (Some "O6"%string) /\
  pandas_sum (map (item_proportion (int64_columns int64_order)
                     (dedup (rows int64_order)))
                (order_items (dedup (rows int64_order)) (Some "O6"%string))) = 1.
Proof.
  assert (Hpos : 0 < order_items_total (int64_columns int64_order)
                       (dedup (rows int64_order)) (Some "O6"%string)).
  { vm_compute. reflexivity. }
  split; [exact Hpos |].
  split; [exact int64_order_without_wrap |].
  exact (proportions_sum_to_one _ _ Hpos int64_order_without_wrap).
Defined.

(** ** Rounding to two decimals *)

Lemma round2_grid (x : Qc) :
  exists n : Z,
    round2 x = Qc_of_Z n / Qc_of_Z 100 /\
    (inject_Z n - (1 # 2) <= this x * inject_Z 100 <= inject_Z n + (1 # 2))%Q /\
    (forall a : Z, (inject_Z a <= this x * inject_Z 100)%Q -> (a <= n)%Z) /\
    (forall b : Z, (this x * inject_Z 100 <= inject_Z b)%Q -> (n <= b)%Z).
Proof.
  unfold round2.
  set (z := x * Qc_of_Z 100).
  assert (Hz : (this z == this x * inject_Z 100)%Q).
  { unfold z. rewrite this_mult, this_Qc_of_Z. reflexivity. }
  set (f := Qfloor z).
  pose proof (Qfloor_le z) as Hlo. pose proof (Qlt_floor z) as Hhi.
  fold f in Hlo, Hhi.
  assert (Hf1 : (inject_Z (f + 1) == inject_Z f + 1)%Q).
  { rewrite inject_Z_plus. reflexivity. }
  rewrite Hf1 in Hhi.
  set (r := z - Qc_of_Z f).
  assert (Hr : (this r == this z - inject_Z f)%Q).
  { unfold r. rewrite this_minus, this_Qc_of_Z. reflexivity. }
  assert (Hh : (this (Q2Qc (1 # 2)) == 1 # 2)%Q)
    by (unfold Q2Qc; cbn [this]; apply Qred_correct).
  assert (Hfloor_a : forall a : Z, (inject_Z a <= this z)%Q -> (a <= f)%Z).
  { intros a Ha. unfold f. rewrite <- (Qfloor_Z a). apply Qfloor_resp_le, Ha. }
  unfold Qccompare.
  destruct (Qcompare_spec (this r) (this (Q2Qc (1 # 2)))) as [E | E | E];
    rewrite Hr, Hh in E.
  - destruct (Z.even f).
    + exists f. split; [reflexivity |]. rewrite <- Hz.
      split; [split; qlra |]. split.
      * intros a Ha. apply Hfloor_a. rewrite Hz. exact Ha.
      * intros b Hb. rewrite <- Hz in Hb.
        rewrite Zle_Qle. qlra.
    + exists (f + 1)%Z. split; [reflexivity |]. rewrite <- Hz, Hf1.
      split; [split; qlra |]. split.
      * intros a Ha. rewrite <- Hz in Ha. specialize (Hfloor_a a Ha). lia.
      * intros b Hb. rewrite <- Hz in Hb.
        assert ((f < b)%Z).
        { rewrite Zlt_Qlt. qlra. }
        lia.
  - exists f. split; [reflexivity |]. rewrite <- Hz.
    split; [split; qlra |]. split.
    + intros a Ha. apply Hfloor_a. rewrite Hz. exact Ha.
    + intros b Hb. rewrite <- Hz in Hb. rewrite Zle_Qle. qlra.
  - exists (f + 1)%Z. split; [reflexivity |]. rewrite <- Hz, Hf1.
    split; [split; qlra |]. split.
    + intros a Ha. rewrite <- Hz in Ha. specialize (Hfloor_a a Ha). lia.
    + intros b Hb. rewrite <- Hz in Hb.
      assert ((f < b)%Z).
      { rewrite Zlt_Qlt. qlra. }
      lia.
Qed.

Lemma this_hundredths (n : Z) :
  (this (Qc_of_Z n / Qc_of_Z 100) == inject_Z n * (1 # 100))%Q.
Proof.
  rewrite this_div, !this_Qc_of_Z. unfold Qdiv.
  apply Qmult_comp; reflexivity.
Qed.


Lemma pandas_sum_nonneg (l : list num) :
  Forall (fun v => forall x, v = Some x -> 0 <= x) l ->
  0 <= pandas_sum l
  /\ forall x, In (Some x) l -> x <= pandas_sum l.
Proof.
  induction 1 as [| v t Hv _ [IH0 IH]]; cbn [pandas_sum].
  - split; [apply Qcle_refl | intros x []].
  - destruct v as [y |].
    + specialize (Hv y eq_refl).
      assert (Hsum : (this (y + pandas_sum t) == this y + this (pandas_sum t))%Q)
        by apply this_plus.
      unfold Qcle in *.
      split.
      * rewrite Hsum. change (this 0) with 0%Q in *. lra.
      * intros x [E | Hx].
        -- injection E as ->. rewrite Hsum. change (this 0) with 0%Q in *. lra.
        -- specialize (IH x Hx). rewrite Hsum.
           change (this 0) with 0%Q in *. lra.
    + split; [exact IH0 |]. intros x [E | Hx]; [discriminate E | apply IH, Hx].
Qed.

Lemma round2_percentage_bounds (v total : Qc) :
  0 <= v -> v <= total -> 0 < total ->
  0 <= round2 (v / total * Qc_of_Z 100)
  /\ round2 (v / total * Qc_of_Z 100) <= Qc_of_Z 100.
Proof.
  intros Hv Hvt Ht. unfold Qcle, Qclt in *. change (this 0) with 0%Q in *.
  destruct (round2_grid (v / total * Qc_of_Z 100)) as (n & Hn & _ & Hge & Hle).
  assert (Hx : (this (v / total * Qc_of_Z 100) == this v / this total * 100)%Q).
  { rewrite this_mult, this_div, this_Qc_of_Z. reflexivity. }
  assert (Hfrac0 : (0 <= this v / this total)%Q).
  { apply Qle_shift_div_l; [exact Ht | lra]. }
  assert (Hfrac1 : (this v / this total <= 1)%Q).
  { apply Qle_shift_div_r; [exact Ht | lra]. }
  assert (H100 : (inject_Z 100 == 100)%Q) by reflexivity.
  assert (H0 : (0 <= n)%Z).
  { apply Hge. rewrite Hx, H100. change (inject_Z 0) with 0%Q.
    set (fr := (this v / this total)%Q) in *. clearbody fr. nra. }
  assert (H1 : (n <= 10000)%Z).
  { apply Hle. rewrite Hx, H100. change (inject_Z 10000) with 10000%Q.
    set (fr := (this v / this total)%Q) in *. clearbody fr. nra. }
  rewrite Hn, this_hundredths, this_Qc_of_Z, H100.
  rewrite Zle_Qle in H0, H1. change (inject_Z 0) with 0%Q in H0.
  change (inject_Z 10000) with 10000%Q in H1.
  split; lra.
Qed.

(** X10. Proportion bounds: when the items of a record's order have no
    negative value (missing values allowed) and line 50 adds them up without
    wrap-around, the proportion percentage of the record, if it is a number,
    lies between 0 and 100. *)
Theorem proportion_pct_bounds (df : DataFrame) (out : list CleanedRecord)
  (r : CleanedRecord) (p : Qc) :
  clean_transaction_data df = Ok out ->
  In r out ->
  Forall (fun b => forall v, item_val b = Some v -> 0 <= v)
         (order_items (dedup (rows df)) (out_order_number r)) ->
  total_without_wrap (int64_columns df) (dedup (rows df)) (out_order_number r) ->
  item_proportion_pct r = Some p ->
  0 <= p /\ p <= Qc_of_Z 100.
Proof.
  intros Hout Hr Hnonneg Hexact Hp.
  destruct (clean_record_source df out r Hout Hr) as (b & Hb & Hbr).
  apply process_row_Ok_inv in Hbr.
  destruct Hbr as (total & _ & Ho & _ & _ & _ & Hpct & _).
  rewrite Hp in Hpct. rewrite Ho in Hnonneg, Hexact.
  unfold item_proportion in Hpct.
  destruct (Qcltb 0 (order_items_total (int64_columns df) (dedup (rows df)) (order_number (snd b))))
    eqn:Epos.
  - apply Qcltb_lt in Epos.
    destruct (order_number (snd b)) as [o |] eqn:Eo.
    + assert (Hin : In b (order_items (dedup (rows df)) (Some o))).
      { unfold order_items. apply filter_In. split; [exact Hb |].
        rewrite Eo. apply cell_eqb_Some. reflexivity. }
      destruct (item_val b) as [v |] eqn:Ev; [| discriminate Hpct].
      cbn [ndiv nmul nlift2 nround2 option_map] in Hpct.
      injection Hpct as ->.
      assert (Hall : Forall (fun w => forall x, w = Some x -> 0 <= x)
                       (map item_val (order_items (dedup (rows df)) (Some o)))).
      { apply Forall_forall. intros w Hw. apply in_map_iff in Hw.
        destruct Hw as (b' & <- & Hb'). rewrite Forall_forall in Hnonneg.
        apply Hnonneg, Hb'. }
      destruct (pandas_sum_nonneg _ Hall) as [_ Hle].
      apply round2_percentage_bounds; [| | exact Epos].
      * rewrite Forall_forall in Hnonneg. exact (Hnonneg b Hin v Ev).
      * rewrite (order_items_total_sum _ _ _ Hexact). apply Hle.
        rewrite <- Ev. apply in_map, Hin.
    + exfalso. rewrite order_items_total_None in Epos. exact (Qclt_not_eq _ _ Epos eq_refl).
  - rewrite nround2_zero in Hpct. injection Hpct as ->.
    split; [apply Qcle_refl | unfold Qcle; apply Qle_bool_iff; reflexivity].
Qed.

Lemma proportion_pct_bounds_witness :
  match value (clean_transaction_data scenario_B) with
  | r :: _ =>
      match item_proportion_pct r with
      | Some p => amount (Some p) = Some (6667 # 100) /\ 0 <= p /\ p <= Qc_of_Z 100
      | None => False
      end
  | [] => False
  end.
Proof.
  assert (H : clean_transaction_data scenario_B
              = Ok (value (clean_transaction_data scenario_B))).
  { apply value_Ok. vm_compute. reflexivity. }
  destruct (value (clean_transaction_data scenario_B)) as [| r t] eqn:E.
  - vm_compute in E. discriminate E.
  - assert (Er : amount (item_proportion_pct r) = Some (6667 # 100)
                 /\ out_order_number r = Some "O2"%string).
    { vm_compute in E. injection E as <- _. split; vm_compute; reflexivity. }
    destruct Er as [Er Eo].
    destruct (item_proportion_pct r) as [p |] eqn:Ep; [| discriminate Er].
    split; [exact Er |].
    apply (proportion_pct_bounds scenario_B (r :: t) r p H (or_introl eq_refl));
      [| left; reflexivity | exact Ep].
    rewrite Eo. apply Forall_forall. intros b Hb v Hv.
    assert (Hall : forallb (fun b => match item_val b with
                                     | Some v => Qle_bool 0 v
                                     | None => true
                                     end)
                     (order_items (dedup (rows scenario_B)) (Some "O2"%string))
                   = true) by (vm_compute; reflexivity).
    rewrite forallb_forall in Hall. specialize (Hall b Hb). rewrite Hv in Hall.
    unfold Qcle. apply Qle_bool_iff. exact Hall.
Defined.

(** ** The summary figures *)

Lemma summary_empty : summary [] = KeyError "order_number"%string.
Proof. reflexivity. Qed.

Lemma summary_nonempty (out : list CleanedRecord) :
  out <> [] ->
  exists s, summary out = Ok s
            /\ total_revenue s = pandas_sum (map item_total_price out)
            /\ total_discounts s = pandas_sum (map discount_amount out)
            /\ total_points s = pandas_sum (map points_redeemed out)
            /\ total_paid s = pandas_sum (map final_paid_amount out)
            /\ total_orders s = length (order_numbers out).
Proof.
  destruct out as [| r t]; [congruence |]. intros _.
  eexists. split; [reflexivity |]. repeat split.
Qed.

Lemma summary_Ok_inv (out : list CleanedRecord) (s : Summary) :
  summary out = Ok s ->
  out <> []
  /\ total_revenue s = pandas_sum (map item_total_price out)
  /\ total_discounts s = pandas_sum (map discount_amount out)
  /\ total_points s = pandas_sum (map points_redeemed out)
  /\ total_paid s = pandas_sum (map final_paid_amount out).
Proof.
  destruct out as [| r t]; [discriminate |]. intros H.
  injection H as <-. split; [discriminate |]. repeat split.
Qed.

Lemma sums_of_records (out : list CleanedRecord) :
  Forall (fun r => final_paid_amount r
                   = nsub (nsub (item_total_price r) (discount_amount r))
                          (points_redeemed r)
                   /\ item_total_price r <> None
                   /\ discount_amount r <> None
                   /\ points_redeemed r <> None) out ->
  pandas_sum (map final_paid_amount out)
  = pandas_sum (map item_total_price out)
    - pandas_sum (map discount_amount out)
    - pandas_sum (map points_redeemed out).
Proof.
  induction 1 as [| r t (Hf & Hi & Hd & Hp) _ IH]; cbn [map pandas_sum].
  - ring.
  - rewrite Hf.
    destruct (item_total_price r) as [x |]; [| congruence].
    destruct (discount_amount r) as [d |]; [| congruence].
    destruct (points_redeemed r) as [p |]; [| congruence].
    cbn [nsub nlift2]. rewrite IH. ring.
Qed.

(** X11. The summary of the page.  On the output of an empty table the
    summary fails at its first figure, with the KeyError for order_number,
    since a cleaned table without records has no columns.  On any other
    output every figure is computed, and when no record has a missing item
    total or discount amount the figures are consistent: Total Paid equals
    Total Revenue minus Total Discounts minus Points Redeemed. *)
Theorem summary_totals (df : DataFrame) (out : list CleanedRecord) :
  clean_transaction_data df = Ok out ->
  (rows df = [] -> summary out = KeyError "order_number"%string) /\
  (rows df <> [] ->
   exists s,
     summary out = Ok s /\
     (Forall (fun r => item_total_price r <> None /\ discount_amount r <> None)
             out ->
      total_paid s = total_revenue s - total_discounts s - total_points s)).
Proof.
  intros Hout.
  assert (Hlen : length out = length (dedup (rows df))).
  { apply clean_Ok_inv in Hout. destruct Hout as [_ HF].
    symmetry. exact (Forall2_length HF). }
  split.
  - intros E. rewrite E in Hlen. destruct out; [reflexivity | discriminate Hlen].
  - intros Hne.
    assert (Hout_ne : out <> []).
    { intros ->. apply (dedup_nonempty _ Hne).
      destruct (dedup (rows df)); [reflexivity | discriminate Hlen]. }
    destruct (summary_nonempty out Hout_ne) as (s & Hs & Hr & Hd & Hp & Hf & _).
    exists s. split; [exact Hs |].
    intros Hpresent. rewrite Hr, Hd, Hp, Hf. apply sums_of_records.
    rewrite Forall_forall in Hpresent. apply Forall_forall. intros r Hin.
    destruct (Hpresent r Hin) as [Hi Hda].
    destruct (clean_record_source df out r Hout Hin) as (b & _ & Hbr).
    pose proof (process_row_fields _ _ _ _ _ _ Hbr)
      as (_ & _ & _ & _ & _ & _ & _ & Hpts).
    apply process_row_Ok_inv in Hbr.
    destruct Hbr as (total & _ & _ & _ & _ & _ & _ & _ & Hfinal & _).
    repeat split; try assumption.
    rewrite Hpts. destruct (myr_points_redeemed_value (snd b)); discriminate.
Qed.

Lemma summary_totals_witness :
  clean_transaction_data scenario_B
  = Ok (value (clean_transaction_data scenario_B)) /\
  clean_transaction_data (frame []) = Ok [] /\
  summary [] = KeyError "order_number"%string /\
  match summary (value (clean_transaction_data scenario_B)) with
  | Ok s =>
      (this (total_revenue s) == 150)%Q /\
      (this (total_discounts s) == 20)%Q /\
      (this (total_paid s) == 130)%Q /\
      total_paid s = total_revenue s - total_discounts s - total_points s
  | KeyError _ => False
  end.
Proof.
  assert (H : clean_transaction_data scenario_B
              = Ok (value (clean_transaction_data scenario_B))).
  { apply value_Ok. vm_compute. reflexivity. }
  assert (H0 : clean_transaction_data (frame []) = Ok []) by reflexivity.
  split; [exact H |]. split; [exact H0 |].
  split; [exact (proj1 (summary_totals (frame []) [] H0) eq_refl) |].
  destruct (proj2 (summary_totals scenario_B _ H)) as (s & Hs & Hcons);
    [discriminate |].
  rewrite Hs.
  assert (Hval : match summary (value (clean_transaction_data scenario_B)) with
                 | Ok s => (Qeq_bool (total_revenue s) 150
                            && Qeq_bool (total_discounts s) 20
                            && Qeq_bool (total_paid s) 130)%bool = true
                 | KeyError _ => False
                 end) by (vm_compute; reflexivity).
  rewrite Hs in Hval. apply andb_true_iff in Hval. destruct Hval as [Hval H3].
  apply andb_true_iff in Hval. destruct Hval as [H1 H2].
  split; [apply Qeq_bool_iff, H1 |]. split; [apply Qeq_bool_iff, H2 |].
  split; [apply Qeq_bool_iff, H3 |].
  apply Hcons.
  assert (Hall : forallb (fun r => notna (item_total_price r)
                                   && notna (discount_amount r))
                   (value (clean_transaction_data scenario_B)) = true)
    by (vm_compute; reflexivity).
  rewrite forallb_forall in Hall. apply Forall_forall. intros r Hr.
  specialize (Hall r Hr). apply andb_true_iff in Hall.
  split; apply notna_true; apply Hall.
Defined.

(** ** What is read of the discount rows *)

Lemma mapM_ext {A B : Type} (f g : A -> result B) (l : list A) :
  (forall a, f a = g a) -> mapM f l = mapM g l.
Proof.
  intros H. induction l as [| a t IH]; simpl; [reflexivity |].
  rewrite H, IH. reflexivity.
Qed.

Lemma marker_ids (drows drows' : list RawRow) :
  map marker drows' = map marker drows -> map ids drows' = map ids drows.
Proof.
  intros H.
  assert (E : forall l, map ids l = map (fun m => fst m) (map marker l)).
  { intros l. rewrite map_map. apply map_ext. intros r. reflexivity. }
  rewrite !E, H. reflexivity.
Qed.

Lemma discount_info_marker (drows drows' : list RawRow)
  (ono iid : option string) :
  map marker drows' = map marker drows ->
  match matching_discount drows' ono iid with
  | d :: _ => discountName d
  | [] => Some EmptyString
  end
  = match matching_discount drows ono iid with
    | d :: _ => discountName d
    | [] => Some EmptyString
    end.
Proof.
  unfold matching_discount. revert drows'.
  induction drows as [| d t IH]; intros [| d' t'] H; try discriminate H;
    [reflexivity |].
  cbn [map] in H.
  assert (Hm : marker d' = marker d) by congruence.
  assert (Ht : map marker t' = map marker t) by congruence.
  cbn [filter].
  assert (Hids : ids d' = ids d) by (unfold marker, ids in *; congruence).
  assert (Hname : discountName d' = discountName d)
    by (unfold marker in Hm; congruence).
  rewrite (same_item_ids ono iid d' d Hids).
  destruct (same_item ono iid d); [exact Hname | apply IH, Ht].
Qed.

Lemma process_row_marker (cols ints : list string) (drows drows' : list RawRow)
  (items : list (string * RawRow)) (b : string * RawRow) :
  map marker drows' = map marker drows ->
  process_row cols ints drows' items b = process_row cols ints drows items b.
Proof.
  intros H. unfold process_row, total_order_discount. cbv zeta.
  rewrite (discount_info_marker _ _ _ _ H).
  rewrite (order_discount_loop_ids _ _ _ _ _ _ (marker_ids _ _ H)).
  reflexivity.
Qed.

(** X12. Of the discount rows the function reads the order number, the item
    identifier and the discount name, nothing else: two tables with the same
    columns, of the same types, the same base rows, and discount rows that
    agree on these three fields give the same result, whatever the amounts,
    quantities and other fields of the discount rows. *)
Theorem discount_rows_read_as_markers (df df' : DataFrame) :
  columns df' = columns df ->
  int64_columns df' = int64_columns df ->
  base_rows (rows df') = base_rows (rows df) ->
  map marker (discount_rows (rows df')) = map marker (discount_rows (rows df)) ->
  clean_transaction_data df' = clean_transaction_data df.
Proof.
  intros Hc Hi Hb Hm. unfold clean_transaction_data, dedup.
  rewrite Hc, Hi, Hb.
  rewrite (mapM_ext _ _ _
             (fun b => process_row_marker (columns df) (int64_columns df) _ _
                         (groupby_first (base_rows (rows df))) b Hm)).
  reflexivity.
Qed.

Lemma discount_rows_read_as_markers_witness :
  columns scenario_B_other_amounts = columns scenario_B /\
  int64_columns scenario_B_other_amounts = int64_columns scenario_B /\
  base_rows (rows scenario_B_other_amounts) = base_rows (rows scenario_B) /\
  map marker (discount_rows (rows scenario_B_other_amounts))
  = map marker (discount_rows (rows scenario_B)) /\
  rows scenario_B_other_amounts <> rows scenario_B /\
  clean_transaction_data scenario_B_other_amounts
  = clean_transaction_data scenario_B.
Proof.
  assert (Hc : columns scenario_B_other_amounts = columns scenario_B)
    by reflexivity.
  assert (Hb : base_rows (rows scenario_B_other_amounts)
               = base_rows (rows scenario_B)) by reflexivity.
  assert (Hm : map marker (discount_rows (rows scenario_B_other_amounts))
               = map marker (discount_rows (rows scenario_B))) by reflexivity.
  split; [exact Hc |]. split; [reflexivity |].
  split; [exact Hb |]. split; [exact Hm |].
  split.
  - intros E. assert (E' : map (fun r => amount (item_quantity r))
                             (rows scenario_B_other_amounts)
                           = map (fun r => amount (item_quantity r))
                               (rows scenario_B)) by (rewrite E; reflexivity).
    vm_compute in E'. discriminate E'.
  - exact (discount_rows_read_as_markers _ _ Hc eq_refl Hb Hm).
Defined.

(** ** Tables in which every row carries a discount name *)

Lemma same_item_key (r0 x : RawRow) :
  same_item (order_number r0) (item_ref_id r0) x = true ->
  unique_key x = unique_key r0.
Proof.
  unfold same_item. intros H. apply andb_true_iff in H. destruct H as [Ho Hi].
  apply cell_eqb_eq in Ho. apply cell_eqb_eq in Hi.
  unfold unique_key. rewrite Ho, Hi. reflexivity.
Qed.

Lemma same_item_refl (r0 : RawRow) :
  identified r0 -> same_item (order_number r0) (item_ref_id r0) r0 = true.
Proof.
  intros [Ho Hi]. unfold same_item.
  destruct (order_number r0) as [o |]; [| congruence].
  destruct (item_ref_id r0) as [i |]; [| congruence].
  simpl. rewrite !String.eqb_refl. reflexivity.
Qed.

(** X13. When every row carries a discount name, all rows serve both as
    base rows and as discount rows, and (the rows having both identifiers)
    every record carries a discount name: that of the first row of its key
    in input order. *)
Theorem all_rows_discounted (df : DataFrame) (out : list CleanedRecord) :
  (forall r, In r (rows df) -> discountName r <> None) ->
  Forall identified (rows df) ->
  clean_transaction_data df = Ok out ->
  base_rows (rows df) = rows df /\
  discount_rows (rows df) = rows df /\
  forall r, In r out ->
    exists r0 before after,
      rows df = before ++ r0 :: after /\
      Forall (fun x => unique_key x <> record_key r) before /\
      unique_key r0 = record_key r /\
      discount_name r = discountName r0 /\
      discount_name r <> None.
Proof.
  intros Hall Hid Hout.
  assert (Hbase : base_rows (rows df) = rows df).
  { apply base_rows_of_uniform. right. apply Forall_forall. exact Hall. }
  assert (Hdisc : discount_rows (rows df) = rows df).
  { unfold discount_rows. apply filter_all. intros r Hr.
    apply notna_true, Hall, Hr. }
  split; [exact Hbase |]. split; [exact Hdisc |].
  intros r Hr.
  destruct (clean_record_source df out r Hout Hr) as ([k b] & Hb & Hbr).
  apply process_row_Ok_inv in Hbr. cbn [snd] in Hbr.
  destruct Hbr as (total & _ & Ho & Hi & _ & _ & _ & Hname & _).
  apply dedup_In in Hb. rewrite Hbase in Hb. destruct Hb as [Hk Eb].
  pose proof (group_nonempty _ _ Hk) as Hne.
  destruct (group k (rows df)) as [| r0 rest] eqn:E; [congruence |].
  pose proof E as E'. unfold group in E'. apply filter_head in E'.
  destruct E' as (before & after & Hsplit & Hbefore & Hkey).
  apply String.eqb_eq in Hkey.
  assert (Hr0 : identified r0).
  { rewrite Forall_forall in Hid. apply Hid. rewrite Hsplit.
    apply in_or_app. right. left. reflexivity. }
  assert (Eo : order_number b = order_number r0)
    by (rewrite Eb; apply first_valid_head, Hr0).
  assert (Ei : item_ref_id b = item_ref_id r0)
    by (rewrite Eb; apply first_valid_head, Hr0).
  assert (Erk : record_key r = k).
  { unfold record_key. rewrite Ho, Hi, Eo, Ei. exact Hkey. }
  assert (Hmatch : matching_discount (rows df) (order_number r0) (item_ref_id r0)
                   = r0 :: filter (same_item (order_number r0) (item_ref_id r0))
                             after).
  { unfold matching_discount. rewrite Hsplit, filter_app. cbn [filter].
    rewrite (same_item_refl r0 Hr0).
    replace (filter (same_item (order_number r0) (item_ref_id r0)) before)
      with (@nil RawRow); [reflexivity |].
    symmetry. apply filter_nil_none. intros x Hx.
    destruct (same_item (order_number r0) (item_ref_id r0) x) eqn:Ex;
      [| reflexivity].
    apply same_item_key in Ex. rewrite Forall_forall in Hbefore.
    specialize (Hbefore x Hx). cbv beta in Hbefore.
    apply String.eqb_neq in Hbefore. congruence. }
  rewrite Hdisc, Eo, Ei, Hmatch in Hname.
  exists r0, before, after. rewrite Erk.
  split; [exact Hsplit |].
  split.
  { eapply Forall_impl; [| exact Hbefore]. intros x Hx. cbv beta in Hx.
    apply String.eqb_neq, Hx. }
  split; [exact Hkey |]. split; [exact Hname |].
  rewrite Hname. apply Hall. rewrite Hsplit. apply in_or_app. right.
  left. reflexivity.
Qed.

Lemma all_rows_discounted_witness :
  clean_transaction_data all_discounted
  = Ok (value (clean_transaction_data all_discounted)) /\
  base_rows (rows all_discounted) = rows all_discounted /\
  discount_rows (rows all_discounted) = rows all_discounted /\
  map discount_name (value (clean_transaction_data all_discounted))
  = [Some "FIRST"; Some "THIRD"]%string.
Proof.
  assert (H : clean_transaction_data all_discounted
              = Ok (value (clean_transaction_data all_discounted))).
  { apply value_Ok. vm_compute. reflexivity. }
  assert (Hall : forall r, In r (rows all_discounted) -> discountName r <> None).
  { intros r Hr. simpl in Hr.
    destruct Hr as [<- | [<- | [<- | []]]]; discriminate. }
  assert (Hid : Forall identified (rows all_discounted)).
  { repeat constructor; discriminate. }
  destruct (all_rows_discounted all_discounted _ Hall Hid H) as (Hb & Hd & _).
  split; [exact H |]. split; [exact Hb |]. split; [exact Hd |].
  vm_compute. reflexivity.
Defined.

(** ** Total Discounts, order by order *)

Lemma pandas_sum_zeros (l : list num) :
  Forall (fun v => v = Some 0 \/ v = None) l -> pandas_sum l = 0.
Proof.
  induction 1 as [| v t [-> | ->] _ IH]; cbn [pandas_sum]; [reflexivity | |].
  - rewrite IH. ring.
  - exact IH.
Qed.

Lemma pandas_sum_filter_or {A : Type} (f : A -> num) (p q : A -> bool)
  (l : list A) :
  (forall a, In a l -> p a = true -> q a = false) ->
  pandas_sum (map f (filter (fun a => p a || q a) l))
  = pandas_sum (map f (filter p l)) + pandas_sum (map f (filter q l)).
Proof.
  induction l as [| a t IH]; intros Hdisj; cbn [filter map pandas_sum].
  - ring.
  - assert (IH' := IH (fun x Hx => Hdisj x (or_intror Hx))).
    destruct (p a) eqn:Ep.
    + rewrite (Hdisj a (or_introl eq_refl) Ep). cbn [orb map pandas_sum].
      destruct (f a); rewrite IH'; [ring | reflexivity].
    + cbn [orb]. destruct (q a); cbn [map pandas_sum]; [| exact IH'].
      destruct (f a); rewrite IH'; [ring | reflexivity].
Qed.

Lemma pandas_sum_filter_split {A : Type} (f : A -> num) (p : A -> bool)
  (l : list A) :
  pandas_sum (map f l)
  = pandas_sum (map f (filter p l))
    + pandas_sum (map f (filter (fun a => negb (p a)) l)).
Proof.
  induction l as [| a t IH]; cbn [filter map pandas_sum]; [ring |].
  destruct (p a); cbn [negb map pandas_sum]; destruct (f a); rewrite IH;
    try ring; reflexivity.
Qed.

Lemma pandas_sum_by_order (f : CleanedRecord -> num) (out : list CleanedRecord)
  (ks : list string) :
  NoDup ks ->
  Qc_sum (map (fun o => pandas_sum (map f (records_of_order (Some o) out))) ks)
  = pandas_sum
      (map f (filter (fun r => existsb (fun o => cell_eqb (out_order_number r)
                                                   (Some o)) ks) out)).
Proof.
  induction 1 as [| k ks' Hk _ IH]; cbn [map Qc_sum fold_right existsb].
  - replace (filter (fun _ => false) out) with (@nil CleanedRecord);
      [reflexivity |].
    symmetry. apply filter_nil_none. reflexivity.
  - fold (Qc_sum (map (fun o => pandas_sum
                                  (map f (records_of_order (Some o) out))) ks')).
    rewrite IH. unfold records_of_order.
    rewrite (pandas_sum_filter_or f
               (fun r => cell_eqb (out_order_number r) (Some k))
               (fun r => existsb (fun o => cell_eqb (out_order_number r)
                                             (Some o)) ks')); [reflexivity |].
    intros r _ Hr. apply cell_eqb_eq in Hr.
    destruct (existsb _ ks') eqn:E; [| reflexivity].
    apply existsb_exists in E. destruct E as (o & Ho & Heq).
    rewrite Hr in Heq. simpl in Heq. apply String.eqb_eq in Heq.
    subst o. contradiction.
Qed.

Lemma order_numbers_In (out : list CleanedRecord) (o : string) :
  In o (order_numbers out) <-> exists r, In r out /\ out_order_number r = Some o.
Proof.
  unfold order_numbers. rewrite nodup_In, in_flat_map. split.
  - intros (r & Hr & Ho). exists r. split; [exact Hr |].
    destruct (out_order_number r) as [o' |]; [| contradiction].
    destruct Ho as [-> | []]. reflexivity.
  - intros (r & Hr & Ho). exists r. split; [exact Hr |].
    rewrite Ho. left. reflexivity.
Qed.

Lemma discount_without_order (df : DataFrame) (out : list CleanedRecord)
  (r : CleanedRecord) :
  clean_transaction_data df = Ok out ->
  In r out -> out_order_number r = None -> discount_amount r = Some 0.
Proof.
  intros Hout Hr Hnone.
  destruct (clean_record_source df out r Hout Hr) as (b & _ & Hbr).
  apply process_row_Ok_inv in Hbr.
  destruct Hbr as (total & Ht & Ho & _ & _ & -> & _).
  rewrite Hnone in Ho. symmetry in Ho.
  rewrite Ho, total_order_discount_None in Ht. injection Ht as <-.
  rewrite (item_proportion_None _ _ _ Ho). apply nmul_zero_r.
Qed.

Lemma discount_of_valueless_order (df : DataFrame) (out : list CleanedRecord)
  (o : string) (d : Qc) :
  clean_transaction_data df = Ok out ->
  Qcltb 0 (order_items_total (int64_columns df) (dedup (rows df)) (Some o)) = false ->
  total_order_discount (columns df) (discount_rows (rows df))
    (dedup (rows df)) (Some o) = Ok (Some d) ->
  pandas_sum (map discount_amount (records_of_order (Some o) out)) = 0.
Proof.
  intros Hout Hnpos Hd. apply pandas_sum_zeros. apply Forall_forall.
  intros v Hv. apply in_map_iff in Hv. destruct Hv as (r & <- & Hr).
  pose proof (records_of_order_rows df out (Some o) Hout) as HF.
  destruct (Forall2_In_r _ _ _ _ HF Hr) as (b & Hb & Hbr).
  apply process_row_Ok_inv in Hbr.
  destruct Hbr as (total & Ht & _ & _ & _ & -> & _).
  rewrite (order_items_order _ _ _ Hb), Hd in Ht. injection Ht as <-.
  unfold item_proportion. rewrite (order_items_order _ _ _ Hb), Hnpos.
  left. apply nmul_zero_r.
Qed.

(** X14. The Total Discounts figure of the summary is the sum, over the
    orders of the output, of the order discount total of every order whose
    item value sum is strictly positive; orders of no positive value and
    records without order number add nothing.  This when each order
    discount total is a number and line 50 adds up the items of each order
    without wrap-around. *)
Theorem total_discounts_by_order (df : DataFrame) (out : list CleanedRecord)
  (s : Summary) (D : string -> Qc) :
  clean_transaction_data df = Ok out ->
  summary out = Ok s ->
  (forall o, In o (order_numbers out) ->
     total_without_wrap (int64_columns df) (dedup (rows df)) (Some o)) ->
  (forall o, In o (order_numbers out) ->
     total_order_discount (columns df) (discount_rows (rows df))
       (dedup (rows df)) (Some o) = Ok (Some (D o))) ->
  total_discounts s
  = Qc_sum (map (fun o => if Qcltb 0 (order_items_total (int64_columns df)
                                        (dedup (rows df)) (Some o))
                          then D o else 0)
                (order_numbers out)).
Proof.
  intros Hout Hs Hexact HD.
  apply summary_Ok_inv in Hs. destruct Hs as (_ & _ & -> & _).
  rewrite (pandas_sum_filter_split discount_amount
             (fun r => existsb (fun o => cell_eqb (out_order_number r) (Some o))
                         (order_numbers out)) out).
  rewrite <- (pandas_sum_by_order discount_amount out (order_numbers out))
    by (apply NoDup_nodup).
  rewrite (pandas_sum_zeros (map discount_amount (filter _ out))).
  - rewrite (map_ext_in
               (fun o => pandas_sum (map discount_amount
                                       (records_of_order (Some o) out)))
               (fun o => if Qcltb 0 (order_items_total (int64_columns df)
                                       (dedup (rows df)) (Some o))
                         then D o else 0)); [ring |].
    intros o Ho. specialize (HD o Ho).
    destruct (Qcltb 0 (order_items_total (int64_columns df) (dedup (rows df))
                         (Some o))) eqn:Epos.
    + apply Qcltb_lt in Epos.
      destruct (conservation_of_order df out o Hout Epos (Hexact o Ho))
        as (d & Hd & _ & Hsum).
      rewrite HD in Hd. injection Hd as <-. apply Hsum. reflexivity.
    + exact (discount_of_valueless_order df out o (D o) Hout Epos HD).
  - apply Forall_forall. intros v Hv. apply in_map_iff in Hv.
    destruct Hv as (r & <- & Hr). apply filter_In in Hr. destruct Hr as [Hr Hnot].
    left. apply (discount_without_order df out r Hout Hr).
    destruct (out_order_number r) as [o |] eqn:Eo; [| reflexivity].
    exfalso. apply negb_true_iff in Hnot.
    assert (Hex : existsb (fun o' => cell_eqb (Some o) (Some o'))
                    (order_numbers out) = true).
    { apply existsb_exists. exists o. split.
      - apply order_numbers_In. exists r. auto.
      - simpl. apply String.eqb_refl. }
    congruence.
Qed.

Lemma total_discounts_by_order_witness :
  clean_transaction_data int64_order
  = Ok (value (clean_transaction_data int64_order)) /\
  order_numbers (value (clean_transaction_data int64_order)) = ["O6"%string] /\
  match summary (value (clean_transaction_data int64_order)) with
  | Ok s =>
      (this (total_discounts s) == 10)%Q /\
      total_discounts s
      = Qc_sum (map (fun o => if Qcltb 0 (order_items_total
                                            (int64_columns int64_order)
                                            (dedup (rows int64_order)) (Some o))
                              then Q2Qc 10 else 0)
                    (order_numbers (value (clean_transaction_data int64_order))))
  | KeyError _ => False
  end.
Proof.
  assert (H : clean_transaction_data int64_order
              = Ok (value (clean_transaction_data int64_order))).
  { apply value_Ok. vm_compute. reflexivity. }
  assert (Hn : order_numbers (value (clean_transaction_data int64_order))
               = ["O6"%string]) by (vm_compute; reflexivity).
  split; [exact H |]. split; [exact Hn |].
  destruct (summary (value (clean_transaction_data int64_order)))
    as [s | k] eqn:Hs; [| vm_compute in Hs; discriminate Hs].
  assert (Hval : match summary (value (clean_transaction_data int64_order)) with
                 | Ok s => Qeq_bool (total_discounts s) 10 = true
                 | KeyError _ => False
                 end) by (vm_compute; reflexivity).
  rewrite Hs in Hval. split; [apply Qeq_bool_iff, Hval |].
  apply (total_discounts_by_order int64_order _ s (fun _ => Q2Qc 10) H Hs).
  - intros o Ho. rewrite Hn in Ho. destruct Ho as [<- | []].
    exact int64_order_without_wrap.
  - intros o Ho. rewrite Hn in Ho. destruct Ho as [<- | []].
    destruct (total_order_discount (columns int64_order)
                (discount_rows (rows int64_order)) (dedup (rows int64_order))
                (Some "O6"%string)) as [[d |] | k] eqn:E;
      try (vm_compute in E; discriminate E).
    do 2 f_equal. apply Qc_is_canon.
    assert (E' : option_map amount
                   (match total_order_discount (columns int64_order)
                            (discount_rows (rows int64_order))
                            (dedup (rows int64_order)) (Some "O6"%string) with
                    | Ok x => Some x | KeyError _ => None end)
                 = Some (Some (10 # 1))) by (vm_compute; reflexivity).
    rewrite E in E'. cbn [option_map amount] in E'. injection E' as E'.
    rewrite E'. reflexivity.
Defined.

(** ** The accuracy of the proportion percentage *)



(** ** When the paid amount column is read *)

Lemma order_discount_loop_gated (cols : list string) (drows : list RawRow)
  (ono : option string) (items : list (string * RawRow)) (acc total : num) :
  order_discount_loop cols drows ono items acc = Ok total ->
  (exists b, In b items /\ has_discount_row drows ono b = true) ->
  In "myr_paid_amount"%string cols.
Proof.
  revert acc. induction items as [| a t IH]; intros acc H (b & Hb & Hg).
  - contradiction.
  - cbn [order_discount_loop] in H. rewrite matching_discount_gate in H.
    destruct (has_discount_row drows ono a) eqn:Ea.
    + apply bind_Ok_inv in H. destruct H as (u & Hget & _).
      apply getitem_Ok_inv in Hget. exact Hget.
    + destruct Hb as [<- | Hb]; [congruence |].
      apply (IH acc H). exists b. auto.
Qed.

Lemma has_discount_row_order (drows : list RawRow) (ono : option string)
  (b : string * RawRow) :
  has_discount_row drows ono b = true -> exists o, ono = Some o.
Proof.
  unfold has_discount_row. intros H. apply existsb_exists in H.
  destruct H as (d & _ & H). unfold same_item in H.
  apply andb_true_iff in H. destruct H as [H _].
  destruct ono as [o |]; [exists o; reflexivity |].
  rewrite cell_eqb_None_r in H. discriminate H.
Qed.

(** X15. The paid amount column is read only for discounted items.  A
    table that has every expected column but the paid amount fails, with the
    KeyError naming that column, exactly when some deduplicated item has a
    discount row with its order number and item identifier; without such an
    item the table is processed to the end. *)
Theorem paid_column_read_for_discounts (df : DataFrame) :
  (forall c, In c required_columns -> c <> "myr_paid_amount"%string ->
             In c (columns df)) ->
  ~ In "myr_paid_amount"%string (columns df) ->
  (clean_transaction_data df = KeyError "myr_paid_amount"%string
   <-> exists b, In b (dedup (rows df))
                 /\ has_discount_row (discount_rows (rows df))
                      (order_number (snd b)) b = true) /\
  ((forall b, In b (dedup (rows df)) ->
              has_discount_row (discount_rows (rows df))
                (order_number (snd b)) b = false) <->
   exists out, clean_transaction_data df = Ok out).
Proof.
  intros Hcols Hpaid.
  assert (Hgated : (exists b, In b (dedup (rows df))
                     /\ has_discount_row (discount_rows (rows df))
                          (order_number (snd b)) b = true) ->
                   clean_transaction_data df = KeyError "myr_paid_amount"%string).
  { intros (b & Hb & Hg).
    destruct (clean_transaction_data df) as [out | k] eqn:E.
    - exfalso. apply clean_Ok_inv in E. destruct E as [_ HF].
      destruct (Forall2_In_l _ _ _ _ HF Hb) as (r & _ & Hbr).
      apply process_row_Ok_inv in Hbr. destruct Hbr as (total & Ht & _).
      apply Hpaid. unfold total_order_discount in Ht.
      apply (order_discount_loop_gated _ _ _ _ _ _ Ht).
      exists b. split; [| exact Hg].
      destruct (has_discount_row_order _ _ _ Hg) as (o & Ho).
      unfold order_items. apply filter_In. split; [exact Hb |].
      rewrite Ho. apply cell_eqb_Some. reflexivity.
    - f_equal. apply clean_KeyError_inv in E. destruct E as [Hreq Habs].
      destruct (string_dec k "myr_paid_amount") as [-> | Hne]; [reflexivity |].
      exfalso. exact (Habs (Hcols k Hreq Hne)). }
  assert (Hungated : (forall b, In b (dedup (rows df)) ->
                        has_discount_row (discount_rows (rows df))
                          (order_number (snd b)) b = false) ->
                     exists out, clean_transaction_data df = Ok out).
  { intros Hno.
    assert (Hc : forall c, In c required_columns ->
                           c <> "myr_paid_amount"%string ->
                           getitem (columns df) c = Ok tt).
    { intros c Hc Hne. apply getitem_present, Hcols; assumption. }
    unfold clean_transaction_data.
    rewrite !Hc by (first [simpl; tauto | discriminate]). cbn [bind].
    apply mapM_total. intros b Hb. unfold process_row, total_order_discount.
    rewrite order_discount_loop_ungated.
    - rewrite !Hc by (first [simpl; tauto | discriminate]). cbn [bind].
      eexists. reflexivity.
    - apply Forall_forall. intros b' Hb'. unfold order_items in Hb'.
      apply filter_In in Hb'. destruct Hb' as [Hin Heq].
      apply cell_eqb_eq in Heq. rewrite <- Heq. apply Hno, Hin. }
  split; split.
  - intros E. destruct (existsb (fun b => has_discount_row
                                   (discount_rows (rows df))
                                   (order_number (snd b)) b)
                          (dedup (rows df))) eqn:Ex.
    + apply existsb_exists in Ex. exact Ex.
    + exfalso. destruct Hungated as (out & Hout); [| congruence].
      intros b Hb. destruct (has_discount_row _ _ b) eqn:Eb; [| reflexivity].
      assert (Ht : existsb (fun b => has_discount_row
                               (discount_rows (rows df))
                               (order_number (snd b)) b)
                     (dedup (rows df)) = true)
        by (apply existsb_exists; exists b; auto).
      congruence.
  - exact Hgated.
  - exact Hungated.
  - intros (out & Hout) b Hb.
    destruct (has_discount_row _ _ b) eqn:Eb; [| reflexivity].
    exfalso. rewrite Hgated in Hout; [discriminate Hout |].
    exists b. auto.
Qed.

Lemma paid_column_read_for_discounts_witness :
  (forall c, In c required_columns -> c <> "myr_paid_amount"%string ->
             In c (columns no_paid_column)) /\
  ~ In "myr_paid_amount"%string (columns no_paid_column) /\
  is_ok (clean_transaction_data no_paid_column) = true /\
  forall b, In b (dedup (rows no_paid_column)) ->
            has_discount_row (discount_rows (rows no_paid_column))
              (order_number (snd b)) b = false.
Proof.
  assert (Hc : forall c, In c required_columns ->
                         c <> "myr_paid_amount"%string ->
                         In c (columns no_paid_column)).
  { intros c Hc Hne. simpl in Hc. simpl.
    repeat (destruct Hc as [<- | Hc]; [tauto |]). contradiction. }
  assert (Hp : ~ In "myr_paid_amount"%string (columns no_paid_column)).
  { simpl. intros H. repeat (destruct H as [H | H]; [discriminate H |]). exact H. }
  split; [exact Hc |]. split; [exact Hp |].
  split; [vm_compute; reflexivity |].
  apply (proj2 (paid_column_read_for_discounts no_paid_column Hc Hp)).
  assert (H : is_ok (clean_transaction_data no_paid_column) = true)
    by (vm_compute; reflexivity).
  destruct (clean_transaction_data no_paid_column) as [out | k];
    [exists out; reflexivity | discriminate H].
Defined.
